(** * lotus wallet broker: router, safe decorator, offline queue, relay

    A shallow embedding of the Go sources under [cmd/lotus-wallet] and
    [cmd/lotus-offline-wallet]:

    - [safewallet.go]  : [SafeWallet] (capability-restricting decorator) and
                         [MultiWallet] (ordered backend router);
    - [offline.go]     : [OfflineWallet] (pending-signature queue, and the
                         key list it keeps in the datastore);
    - [server.go]      : [WalletServer] (relay registry and round trip);
    - [main.go]        : the [connect] loop run by the remote peer, and the
                         router [run] builds;
    - [node.go]        : the key info [node import] sends.

    Go values are modelled as the program has them: [address.Address] and
    [cid.Cid] are structs around one string and compare by value; a Go
    [(value, error)] return is a pair whose second component is
    [option error]; maps are [gmap]s; a pointer that may be nil is an
    [option].  Part I holds the definitions, Part II the proofs. *)

From Stdlib Require Import Ascii String List ZArith.
From Stdlib.Strings Require Import Byte.
From stdpp Require Import base option list gmap sets strings pretty.

#[local] Set Warnings "-clear-no-such-hyp".

Open Scope string_scope.
Open Scope list_scope.
Open Scope stdpp_scope.

(* ===================================================================== *)
(** * Part I.  Definitions                                                *)
(* ===================================================================== *)

(** ** Go base types *)

Module Go.

(** An [error] value is identified with its message. *)
Abbreviation error := string (only parsing).
Abbreviation bytes := (list byte) (only parsing).

#[global] Instance byte_eq_decision : EqDecision byte := Byte.byte_eq_dec.

(** [address.Address] is [struct{ str string }]; [address.Undef] and
    [address.Address{}] are both the zero value. *)
Abbreviation Address := string (only parsing).
Definition Undef : Address := "".

(** [cid.Cid] is [struct{ str string }]. *)
Abbreviation Cid := string (only parsing).

(** [types.KeyType] and [api.MsgType] are string types. *)
Abbreviation KeyType := string (only parsing).
Abbreviation MsgType := string (only parsing).

(** [api.MTChainMsg], a constant of the lotus [api] package. *)
Definition MTChainMsg : MsgType := "message".

Record MsgMeta := mkMsgMeta { Type_ : MsgType; Extra : bytes }.

(** [crypto.Signature]; [SigType] is a byte. *)
Record Signature := mkSignature { SigType : byte; SigData : bytes }.

Record KeyInfo := mkKeyInfo { KeyInfo_Type : KeyType; PrivateKey : bytes }.

(** The order in which [range] visits the entries of a map is chosen by
    the Go runtime.  It is an oracle that permutes the entries. *)
Class MapOrder := {
  range_order : ∀ A : Type, list A → list A;
  range_order_perm : ∀ (A : Type) (l : list A), range_order A l ≡ₚ l
}.

Definition range `{MapOrder} `{Countable K} {V : Type} (m : gmap K V) : list (K * V) :=
  range_order (K * V) (map_to_list m).

(** Synchronisation events of one call, in program order: taking and
    releasing the receiver's mutex, and operations [b] that block the
    calling goroutine until another party acts. *)
Inductive event (B : Type) :=
| EvLock
| EvUnlock
| EvBlock (b : B).

Arguments EvLock {B}.
Arguments EvUnlock {B}.
Arguments EvBlock {B} b.

(** Does the trace perform a blocking operation while the mutex is held?
    [held] tells whether it is held when the trace starts. *)
Fixpoint blocks_under_lock {B : Type} (held : bool) (t : list (event B)) : bool :=
  match t with
  | [] => false
  | EvLock :: t' => blocks_under_lock true t'
  | EvUnlock :: t' => blocks_under_lock false t'
  | EvBlock _ :: t' => held || blocks_under_lock held t'
  end.

(** A method on a receiver of type [S]: it updates the receiver and
    yields a value and the events it performed. *)
Definition M (B S A : Type) : Type := S → (A * list (event B)) * S.

#[global] Instance M_ret {B S : Type} : MRet (M B S) :=
  λ A a s, ((a, []), s).

#[global] Instance M_bind {B S : Type} : MBind (M B S) :=
  λ A C f m s,
    let '((a, t1), s1) := m s in
    let '((c, t2), s2) := f a s1 in
    ((c, t1 ++ t2), s2).

Definition get {B S : Type} : M B S S := λ s, ((s, []), s).
Definition put {B S : Type} (s' : S) : M B S unit := λ _, ((tt, []), s').
Definition emit {B S : Type} (e : event B) : M B S unit := λ s, ((tt, [e]), s).
Definition Lock {B S : Type} : M B S unit := emit EvLock.
Definition Unlock {B S : Type} : M B S unit := emit EvUnlock.

(** How a call ends: it returns, or [log.Fatalf] ends the process with a
    message, or it panics. *)
Inductive outcome (A : Type) :=
| Returns (a : A)
| Fatal (msg : string)
| Panics (msg : string).

Arguments Returns {A} a.
Arguments Fatal {A} msg.
Arguments Panics {A} msg.

(** [time.Duration] counts nanoseconds. *)
Definition Second : Z := 1000000000.
Definition Minute : Z := 60 * Second.

End Go.

Import Go.

(** ** The capability interface [api.WalletAPI] *)

Module Wallet.

Section Interface.

(** [W] is the state the backends live in (key stores, devices, remote
    nodes).  A method reads and updates it. *)
Context {W : Type}.

Record WalletAPI := mkWalletAPI {
  WalletNew : KeyType → W → (Address * option error) * W;
  WalletHas : Address → W → (bool * option error) * W;
  WalletList : W → (list Address * option error) * W;
  WalletSign : Address → bytes → MsgMeta → W → (option Signature * option error) * W;
  WalletExport : Address → W → (option KeyInfo * option error) * W;
  WalletImport : option KeyInfo → W → (Address * option error) * W;
  WalletDelete : Address → W → option error * W
}.

(** *** safewallet.go: [SafeWallet] *)

Definition SafeWallet_WalletNew (s : WalletAPI) (keyType : KeyType) (st : W)
  : (Address * option error) * W :=
  ((Undef, Some "safe wallet is enabled, use import instead of new"), st).

Definition SafeWallet_WalletHas (s : WalletAPI) (address : Address) (st : W) :=
  WalletHas s address st.

Definition SafeWallet_WalletList (s : WalletAPI) (st : W) :=
  WalletList s st.

Definition SafeWallet_WalletSign (s : WalletAPI) (signer : Address) (toSign : bytes)
  (meta : MsgMeta) (st : W) :=
  WalletSign s signer toSign meta st.

Definition SafeWallet_WalletExport (s : WalletAPI) (address : Address) (st : W)
  : (option KeyInfo * option error) * W :=
  ((None, Some "DO NOT EXPORT THIS WALLET"), st).

Definition SafeWallet_WalletImport (s : WalletAPI) (info : option KeyInfo) (st : W) :=
  WalletImport s info st.

Definition SafeWallet_WalletDelete (s : WalletAPI) (address : Address) (st : W) :=
  WalletDelete s address st.

(** [&SafeWallet{lw}] used as an [api.WalletAPI]. *)
Definition SafeWallet (s : WalletAPI) : WalletAPI := {|
  WalletNew := SafeWallet_WalletNew s;
  WalletHas := SafeWallet_WalletHas s;
  WalletList := SafeWallet_WalletList s;
  WalletSign := SafeWallet_WalletSign s;
  WalletExport := SafeWallet_WalletExport s;
  WalletImport := SafeWallet_WalletImport s;
  WalletDelete := SafeWallet_WalletDelete s
|}.

(** *** safewallet.go: [MultiWallet] *)

Record MultiWallet := mkMultiWallet { wallets : list WalletAPI }.

Definition NewMultiWallet : MultiWallet := {| wallets := [] |}.

Definition Add (m : MultiWallet) (w : WalletAPI) : MultiWallet :=
  {| wallets := wallets m ++ [w] |}.

(** [for _, w := range m.wallets { a, err := w.WalletNew(..); if err == nil
    { return a, err } }] followed by the aggregate error. *)
Fixpoint WalletNew_loop (ws : list WalletAPI) (keyType : KeyType) (st : W)
  : (Address * option error) * W :=
  match ws with
  | [] => ((Undef, Some ("no wallet backends supporting key type: " +:+ keyType)), st)
  | w :: ws' =>
      let '((a, err), st') := WalletNew w keyType st in
      match err with
      | None => ((a, None), st')
      | Some _ => WalletNew_loop ws' keyType st'
      end
  end.

Definition MultiWallet_WalletNew (m : MultiWallet) (keyType : KeyType) (st : W) :=
  WalletNew_loop (wallets m) keyType st.

(** The inner loop of [WalletList]: [seen] is the
    [map[address.Address]struct{}], [out] the slice appended to. *)
Fixpoint WalletList_addrs (l : list Address) (seen : gset Address) (out : list Address)
  : gset Address * list Address :=
  match l with
  | [] => (seen, out)
  | a :: l' =>
      if decide (a ∈ seen) then WalletList_addrs l' seen out
      else WalletList_addrs l' ({[a]} ∪ seen) (out ++ [a])
  end.

Fixpoint WalletList_loop (ws : list WalletAPI) (seen : gset Address) (out : list Address)
  (st : W) : (list Address * option error) * W :=
  match ws with
  | [] => ((out, None), st)
  | w :: ws' =>
      let '((l, err), st') := WalletList w st in
      match err with
      | Some e => (([], Some e), st')
      | None =>
          let '(seen', out') := WalletList_addrs l seen out in
          WalletList_loop ws' seen' out' st'
      end
  end.

Definition MultiWallet_WalletList (m : MultiWallet) (st : W) :=
  WalletList_loop (wallets m) ∅ [] st.

(** [WalletHas]: a backend's error ends the process. *)
Fixpoint WalletHas_loop (ws : list WalletAPI) (address : Address) (st : W)
  : outcome (bool * option error) * W :=
  match ws with
  | [] => (Returns (false, None), st)
  | w :: ws' =>
      let '((a, err), st') := WalletHas w address st in
      match err with
      | Some e => (Fatal ("wallet has: " +:+ e), st')
      | None => if a then (Returns (true, None), st') else WalletHas_loop ws' address st'
      end
  end.

Definition MultiWallet_WalletHas (m : MultiWallet) (address : Address) (st : W) :=
  WalletHas_loop (wallets m) address st.

Fixpoint WalletSign_loop (ws : list WalletAPI) (signer : Address) (toSign : bytes)
  (meta : MsgMeta) (st : W) : outcome (option Signature * option error) * W :=
  match ws with
  | [] => (Returns (None, Some "key not found"), st)
  | w :: ws' =>
      let '((a, err), st') := WalletHas w signer st in
      match err with
      | Some e => (Fatal ("wallet has: " +:+ e), st')
      | None =>
          if a then
            let '(r, st'') := WalletSign w signer toSign meta st' in (Returns r, st'')
          else WalletSign_loop ws' signer toSign meta st'
      end
  end.

Definition MultiWallet_WalletSign (m : MultiWallet) (signer : Address) (toSign : bytes)
  (meta : MsgMeta) (st : W) :=
  WalletSign_loop (wallets m) signer toSign meta st.

Fixpoint WalletExport_loop (ws : list WalletAPI) (address : Address) (st : W)
  : outcome (option KeyInfo * option error) * W :=
  match ws with
  | [] => (Returns (None, Some "key not found"), st)
  | w :: ws' =>
      let '((a, err), st') := WalletHas w address st in
      match err with
      | Some e => (Fatal ("wallet has: " +:+ e), st')
      | None =>
          if a then
            let '(r, st'') := WalletExport w address st' in (Returns r, st'')
          else WalletExport_loop ws' address st'
      end
  end.

Definition MultiWallet_WalletExport (m : MultiWallet) (address : Address) (st : W) :=
  WalletExport_loop (wallets m) address st.

(** The aggregate error of [WalletImport] reads [info.Type]: with a nil
    [info] that is a nil dereference. *)
Fixpoint WalletImport_loop (ws : list WalletAPI) (info : option KeyInfo) (st : W)
  : outcome (Address * option error) * W :=
  match ws with
  | [] =>
      match info with
      | Some ki =>
          (Returns (Undef, Some ("no wallet backends supporting key type: "
                                   +:+ KeyInfo_Type ki)), st)
      | None => (Panics "invalid memory address or nil pointer dereference", st)
      end
  | w :: ws' =>
      let '((a, err), st') := WalletImport w info st in
      match err with
      | None => (Returns (a, None), st')
      | Some _ => WalletImport_loop ws' info st'
      end
  end.

Definition MultiWallet_WalletImport (m : MultiWallet) (info : option KeyInfo) (st : W) :=
  WalletImport_loop (wallets m) info st.

Fixpoint WalletDelete_loop (ws : list WalletAPI) (address : Address) (st : W)
  : outcome (option error) * W :=
  match ws with
  | [] => (Returns (Some "key not found"), st)
  | w :: ws' =>
      let '((a, err), st') := WalletHas w address st in
      match err with
      | Some e => (Fatal ("wallet has: " +:+ e), st')
      | None =>
          if a then
            let '(r, st'') := WalletDelete w address st' in (Returns r, st'')
          else WalletDelete_loop ws' address st'
      end
  end.

Definition MultiWallet_WalletDelete (m : MultiWallet) (address : Address) (st : W) :=
  WalletDelete_loop (wallets m) address st.

(** *** main.go: the router [run] builds *)

(** The flags [run] looks at: [safe] and [remote] through [IsSet],
    [ledger] and [server] through [Bool]. *)
Record run_flags := mkRunFlags {
  safe_set : bool;
  ledger : bool;
  server : bool;
  remote_set : bool
}.

(** The backends [run] adds, in order, once the key store, the ledger
    datastore and the remote client were opened: [lw], [ledgerw], [serverw]
    and [rw] are the wallets over them. *)
Definition run_wallets (f : run_flags) (lw ledgerw serverw rw : WalletAPI) : MultiWallet :=
  let lw := if safe_set f then SafeWallet lw else lw in
  let multi := Add NewMultiWallet lw in
  let multi := if ledger f then Add multi ledgerw else multi in
  let multi := if server f then Add multi serverw else multi in
  if remote_set f then Add multi rw else multi.

(** *** Runs of a backend list, used to state what the router returns *)

(** [has_false address ws st st']: called in order from state [st], the
    [WalletHas] of every backend of [ws] answers false with a nil error;
    [st'] is the state they leave. *)
Inductive has_false (address : Address) : list WalletAPI → W → W → Prop :=
| has_false_nil st : has_false address [] st st
| has_false_cons w ws st st1 st2 :
    WalletHas w address st = ((false, None), st1) →
    has_false address ws st1 st2 →
    has_false address (w :: ws) st st2.

(** [import_fails info ws st st']: the same for [WalletImport] returning
    errors. *)
Inductive import_fails (info : option KeyInfo) : list WalletAPI → W → W → Prop :=
| import_fails_nil st : import_fails info [] st st
| import_fails_cons w ws st a e st1 st2 :
    WalletImport w info st = ((a, Some e), st1) →
    import_fails info ws st1 st2 →
    import_fails info (w :: ws) st st2.

(** The elements of [l] not in [seen], each at its first occurrence. *)
Fixpoint first_occurrences (seen : list Address) (l : list Address) : list Address :=
  match l with
  | [] => []
  | a :: l' =>
      if decide (a ∈ seen) then first_occurrences seen l'
      else a :: first_occurrences (a :: seen) l'
  end.

(** [new_fails keyType ws st st']: called in order from state [st], the
    [WalletNew] of every backend of [ws] returns an error; [st'] is the
    state they leave. *)
Inductive new_fails (keyType : KeyType) : list WalletAPI → W → W → Prop :=
| new_fails_nil st : new_fails keyType [] st st
| new_fails_cons w ws st a e st1 st2 :
    WalletNew w keyType st = ((a, Some e), st1) →
    new_fails keyType ws st1 st2 →
    new_fails keyType (w :: ws) st st2.

(** [lists_ok ws st ls st']: called in order from state [st], the
    [WalletList] of the backends of [ws] return the lists [ls], each with a
    nil error; [st'] is the state they leave. *)
Inductive lists_ok : list WalletAPI → W → list (list Address) → W → Prop :=
| lists_ok_nil st : lists_ok [] st [] st
| lists_ok_cons w ws st l ls st1 st2 :
    WalletList w st = ((l, None), st1) →
    lists_ok ws st1 ls st2 →
    lists_ok (w :: ws) st (l :: ls) st2.

End Interface.

Arguments WalletAPI : clear implicits.
Arguments MultiWallet : clear implicits.
Arguments run_flags : clear implicits.

End Wallet.

Import Wallet.

(** ** offline.go: the pending-signature queue *)

Module Offline.

(** [cid.CidFromBytes] and [Cid.String] of go-cid. *)
Class CidLib := {
  CidFromBytes : bytes → nat * Cid * option error;
  CidString : Cid → string
}.

(** [sigs.Verify] of lotus [lib/sigs]: [None] is a nil error. *)
Class Sigs := {
  Verify : Signature → Address → bytes → option error
}.

Record Meta := mkMeta { Meta_Type : MsgType; Meta_Extra : bytes }.

Record UnsignedMessage := mkUnsignedMessage {
  UM_Address : Address;
  ToSign : bytes;
  UM_Meta : Meta
}.

(** [SignedMessage] embeds an [UnsignedMessage] and a [crypto.Signature]. *)
Record SignedMessage := mkSignedMessage {
  SM_UnsignedMessage : UnsignedMessage;
  SM_Signature : Signature
}.

(** A channel made by [make(chan *crypto.Signature)] is known by the
    order of its creation; it is unbuffered. *)
Abbreviation chan := nat (only parsing).

Record PendingUnsignedMessage := mkPending {
  msg : UnsignedMessage;
  ch : chan
}.

(** The receiver.  [unsigned] is the two-level map of the source; [chans]
    counts the channels made so far.  The datastore [ds] is used by
    [WalletHas], [WalletList], [WalletImport] and [WalletDelete] only. *)
Record OfflineWallet := mkOfflineWallet {
  unsigned : gmap Address (gmap Cid PendingUnsignedMessage);
  chans : nat
}.

(** Operations that park the calling goroutine. *)
Inductive blocking :=
| ChanSend (c : chan) (sig : Signature)
| Select (c : chan) (d : Z).

(** What happens while a [WalletSign] is parked in its [select]: a sender
    may become ready on the channel at elapsed time [t] (in nanoseconds)
    with a signature; when the timer and the sender are ready at once the
    runtime picks ([tie_recv]); [meanwhile] is what the other goroutines do
    to the receiver in between. *)
Record wait := mkWait {
  delivery : option (Z * Signature);
  tie_recv : bool;
  meanwhile : OfflineWallet → OfflineWallet
}.

Section Code.

Context `{MapOrder} `{CidLib} `{Sigs}.

Abbreviation Mo := (M blocking OfflineWallet) (only parsing).

(** The closure of [WalletSign] that registers the request under the lock. *)
Definition WalletSign_register (signer : Address) (toSign : bytes) (meta : MsgMeta) (c : Cid)
  : Mo chan :=
  Lock;;
  o ← get;
  let u1 := match unsigned o !! signer with
            | None => <[signer := ∅]> (unsigned o)
            | Some _ => unsigned o
            end in
  let ch := chans o in
  let entry := {| msg := {| UM_Address := signer;
                            ToSign := toSign;
                            UM_Meta := {| Meta_Type := Type_ meta;
                                          Meta_Extra := Extra meta |} |};
                  ch := ch |} in
  put {| unsigned := <[signer := <[c := entry]> (default ∅ (u1 !! signer))]> u1;
         chans := S ch |};;
  Unlock;;
  mret ch.

(** The deferred closure of [WalletSign]. *)
Definition WalletSign_deferred (signer : Address) (c : Cid) : Mo unit :=
  Lock;;
  o ← get;
  match unsigned o !! signer with
  | Some p => put {| unsigned := <[signer := delete c p]> (unsigned o); chans := chans o |}
  | None => mret tt
  end;;
  Unlock.

Definition sign_timeout : Z := 5 * Minute.

(** [select { case <-time.After(5*time.Minute): ..; case sig := <-ch: .. }] *)
Definition select_case (w : wait) : option Signature * option error :=
  match delivery w with
  | Some (t, sig) =>
      if (t <? sign_timeout)%Z || ((t =? sign_timeout)%Z && tie_recv w)
      then (Some sig, None)
      else (None, Some "timeout to wait to submit signature")
  | None => (None, Some "timeout to wait to submit signature")
  end.

Definition WalletSign_select (ch : chan) (w : wait)
  : Mo (option Signature * option error) :=
  emit (EvBlock (Select ch sign_timeout));;
  o ← get;
  put (meanwhile w o);;
  mret (select_case w).

Definition WalletSign (signer : Address) (toSign : bytes) (meta : MsgMeta) (w : wait)
  : Mo (option Signature * option error) :=
  let '(_, c, err) := CidFromBytes toSign in
  match err with
  | Some e => mret (None, Some e)
  | None =>
      if decide (Type_ meta ≠ MTChainMsg)
      then mret (None, Some "only MTChainMsg is supported")
      else
        ch ← WalletSign_register signer toSign meta c;
        r ← WalletSign_select ch w;
        WalletSign_deferred signer c;;
        mret r
  end.

(** [for _, m := range p { unsigned = append(unsigned, m.msg) }] *)
Fixpoint GetPendingMessages_inner (p : list (Cid * PendingUnsignedMessage))
  (acc : list UnsignedMessage) : list UnsignedMessage :=
  match p with
  | [] => acc
  | (_, m) :: p' => GetPendingMessages_inner p' (acc ++ [msg m])
  end.

Fixpoint GetPendingMessages_outer (ps : list (Address * gmap Cid PendingUnsignedMessage))
  (acc : list UnsignedMessage) : list UnsignedMessage :=
  match ps with
  | [] => acc
  | (_, p) :: ps' => GetPendingMessages_outer ps' (GetPendingMessages_inner (range p) acc)
  end.

Definition GetPendingMessages : Mo (list UnsignedMessage * option error) :=
  Lock;;
  o ← get;
  let unsigned := GetPendingMessages_outer (range (unsigned o)) [] in
  Unlock;;
  mret (unsigned, None).

(** The scan of [SubmitSignature]: the first entry, in iteration order,
    whose content identifier is [cid], whatever address it is filed under. *)
Fixpoint SubmitSignature_inner (p : list (Cid * PendingUnsignedMessage)) (cid : Cid)
  : option PendingUnsignedMessage :=
  match p with
  | [] => None
  | (c, m) :: p' => if decide (c = cid) then Some m else SubmitSignature_inner p' cid
  end.

Fixpoint SubmitSignature_outer (ps : list (Address * gmap Cid PendingUnsignedMessage))
  (cid : Cid) : option PendingUnsignedMessage :=
  match ps with
  | [] => None
  | (_, p) :: ps' =>
      match SubmitSignature_inner (range p) cid with
      | Some m => Some m
      | None => SubmitSignature_outer ps' cid
      end
  end.

Definition SubmitSignature (message : SignedMessage) : Mo (option error) :=
  let um := SM_UnsignedMessage message in
  let '(_, cid, err) := CidFromBytes (ToSign um) in
  match err with
  | Some e => mret (Some e)
  | None =>
      match Verify (SM_Signature message) (UM_Address um) (ToSign um) with
      | Some e => mret (Some e)
      | None =>
          Lock;;
          o ← get;
          r ← match SubmitSignature_outer (range (unsigned o)) cid with
              | Some m =>
                  emit (EvBlock (ChanSend (ch m) (SM_Signature message)));;
                  mret None
              | None => mret (Some ("message " +:+ CidString cid +:+ " does not exist"))
              end;
          Unlock;;
          mret r
      end
  end.

(** *** What the claims speak of *)

(** The entry filed under [(a, c)], if there is one. *)
Definition pending (o : OfflineWallet) (a : Address) (c : Cid)
  : option PendingUnsignedMessage :=
  unsigned o !! a ≫= (.!! c).

(** Every entry is filed under the address of its message and under the
    content identifier of the bytes to sign. *)
Definition well_filed (o : OfflineWallet) : Prop :=
  ∀ a c m, pending o a c = Some m →
    UM_Address (msg m) = a ∧ ∃ n, CidFromBytes (ToSign (msg m)) = (n, c, None).

(** No sender becomes ready on the channel before the timer fires. *)
Definition nothing_delivered (w : wait) : Prop :=
  match delivery w with
  | Some (t, _) => (sign_timeout < t)%Z
  | None => True
  end.

End Code.

(** The wallet [main.go] starts with. *)
Definition empty : OfflineWallet := {| unsigned := ∅; chans := 0 |}.

Section Reachable.

Context `{CidLib}.

(** The wallets the calls can produce from the empty one: [WalletSign]
    files a request once the payload parsed and the type was accepted, and
    its deferred closure removes one; [SubmitSignature] and
    [GetPendingMessages] write nothing. *)
Inductive reachable : OfflineWallet → Prop :=
| reachable_empty : reachable empty
| reachable_register signer toSign meta n c o :
    reachable o →
    CidFromBytes toSign = (n, c, None) →
    Type_ meta = MTChainMsg →
    reachable (WalletSign_register signer toSign meta c o).2
| reachable_deferred signer c o :
    reachable o →
    reachable (WalletSign_deferred signer c o).2.

(** Every channel on file was made before. *)
Definition chans_below (o : OfflineWallet) : Prop :=
  ∀ a c m, pending o a c = Some m → ch m < chans o.

(** No two entries share a channel. *)
Definition chans_distinct (o : OfflineWallet) : Prop :=
  ∀ a c m a' c' m',
    pending o a c = Some m → pending o a' c' = Some m' → ch m = ch m' →
    a = a' ∧ c = c'.

End Reachable.

(** *** The key list kept in the datastore *)

(** go-address: parsing and printing of addresses, and the protocol byte. *)
Class AddressLib := {
  NewFromString : string → Address * option error;
  NewFromBytes : bytes → Address * option error;
  Address_String : Address → string;
  Address_Bytes : Address → bytes;
  Protocol : Address → byte
}.

(** [address.SECP256K1] and [address.BLS]. *)
Definition SECP256K1 : byte := x01.
Definition BLS : byte := x03.

(** go-datastore, for a store in state [D]: [datastore.NewKey], [Get],
    [Put], [Delete], and [Query] with a prefix, which yields the values of
    the results in the order [NextSync] hands them out. *)
Class Datastore (D : Type) := {
  NewKey : string → string;
  ds_Get : string → D → bytes * option error;
  ds_Put : string → bytes → D → option error * D;
  ds_Delete : string → D → option error * D;
  ds_Query : string → D → list bytes * option error
}.

(** [datastore.ErrNotFound]. *)
Definition ErrNotFound : error := "datastore: key not found".

Definition dsOfflinePrefix : string := "/offlinekey/".

Section Keys.

Context `{AddressLib} {D : Type} `{Datastore D}.

Definition keyForAddr (addr : Address) : string :=
  NewKey (dsOfflinePrefix +:+ Address_String addr).

Definition WalletNew (keyType : KeyType) (ds : D) : (Address * option error) * D :=
  ((Undef, Some "cannot new keys from offline wallets, please use import instead"), ds).

Definition WalletHas (address : Address) (ds : D) : (bool * option error) * D :=
  match (ds_Get (keyForAddr address) ds).2 with
  | None => ((true, None), ds)
  | Some e => if decide (e = ErrNotFound) then ((false, None), ds) else ((false, Some e), ds)
  end.

(** The loop over the results of the query. *)
Fixpoint WalletList_results (res : list bytes) (out : list Address)
  : list Address * option error :=
  match res with
  | [] => (out, None)
  | v :: res' =>
      let '(addr, err) := NewFromBytes v in
      match err with
      | Some e => ([], Some e)
      | None => WalletList_results res' (out ++ [addr])
      end
  end.

Definition WalletList (ds : D) : (list Address * option error) * D :=
  let '(res, err) := ds_Query dsOfflinePrefix ds in
  match err with
  | Some e => (([], Some e), ds)
  | None => (WalletList_results res [], ds)
  end.

Definition WalletExport (address : Address) (ds : D) : (option KeyInfo * option error) * D :=
  ((None, Some "cannot export keys from offline wallets"), ds).

(** [info.PrivateKey] holds the address as text. *)
Definition WalletImport (info : option KeyInfo) (ds : D)
  : outcome (Address * option error) * D :=
  match info with
  | None => (Panics "invalid memory address or nil pointer dereference", ds)
  | Some ki =>
      let '(addr, err) := NewFromString (string_of_list_byte (PrivateKey ki)) in
      match err with
      | Some e => (Returns (addr, Some e), ds)
      | None =>
          if decide (Protocol addr ≠ SECP256K1 ∧ Protocol addr ≠ BLS)
          then (Returns (addr, Some "only SECP256K1 or BLS keys are supported"), ds)
          else
            let '(e, ds') := ds_Put (keyForAddr addr) (Address_Bytes addr) ds in
            (Returns (addr, e), ds')
      end
  end.

Definition WalletDelete (address : Address) (ds : D) : option error * D :=
  ds_Delete (keyForAddr address) ds.

(** node.go: the key info the [node import] command builds from its
    argument before it calls [WalletImport]. *)
Definition nodeImport_keyinfo (arg : string) : KeyInfo + error :=
  let '(addr, err) := NewFromString arg in
  match err with
  | Some e => inr e
  | None =>
      if decide (Protocol addr = SECP256K1) then
        inl {| KeyInfo_Type := "secp256k1";
               PrivateKey := list_byte_of_string (Address_String addr) |}
      else if decide (Protocol addr = BLS) then
        inl {| KeyInfo_Type := "bls";
               PrivateKey := list_byte_of_string (Address_String addr) |}
      else inr ("unrecognized key type: " +:+ pretty (Byte.to_N (Protocol addr)))
  end.

End Keys.

End Offline.

(** ** server.go and main.go: the relay *)

Module Relay.

Definition CommandListWalletRequest : Z := 0.
Definition CommandListWalletResponse : Z := 1.
Definition CommandSignRequest : Z := 2.
Definition CommandSignResponse : Z := 3.

Record SignRequest := mkSignRequest {
  Signer : Address;
  ToSign : bytes;
  Meta : MsgMeta
}.

Record SignResponse := mkSignResponse {
  SignResponse_Signature : option Signature;
  SignResponse_Err : string
}.

Record ListWalletResponse := mkListWalletResponse {
  Addresses : list Address;
  ListWalletResponse_Err : string
}.

Record command := mkCommand {
  Command : Z;
  Data : bytes
}.

(** [encoding/json] at the three payload types.  [Unmarshal] yields the
    decoded value or the error. *)
Class Json := {
  Marshal_SignRequest : SignRequest → bytes * option error;
  Unmarshal_SignRequest : bytes → SignRequest + error;
  Marshal_SignResponse : SignResponse → bytes * option error;
  Unmarshal_SignResponse : bytes → SignResponse + error;
  Marshal_ListWalletResponse : ListWalletResponse → bytes * option error;
  Unmarshal_ListWalletResponse : bytes → ListWalletResponse + error
}.

(** A [*websocket.Conn] as the server sees it: [WriteJSON] may fail, and
    [ReadJSON], called after [cmd] was written, yields what the far end
    sent back or the read error (no reply, closed stream). *)
Record Conn := mkConn {
  conn_id : nat;
  WriteJSON : command → option error;
  ReadJSON : command → command * option error
}.

Record clientWallet := mkClientWallet {
  addresses : list Address;
  conn : Conn;
  close : nat
}.

(** [clients] is the [map[*clientWallet]bool] together with the structs
    the keys point to; every value stored in the source is [true].
    [allocated] counts the [clientWallet]s allocated so far. *)
Record WalletServer := mkWalletServer {
  clients : gmap nat clientWallet;
  allocated : nat
}.

Definition NewWalletServer : WalletServer := {| clients := ∅; allocated := 0 |}.

(** Operations that park the calling goroutine: the two halves of a
    round trip on a connection, and the send on an unbuffered [close]
    channel. *)
Inductive blocking :=
| NetWrite (c : nat) (cmd : command)
| NetRead (c : nat)
| CloseSend (c : nat).

Section Server.

Context `{MapOrder} `{Json}.

Abbreviation Ms := (M blocking WalletServer) (only parsing).

(** An error formatted with [%+v] is rendered as its message. *)
Definition call (c : clientWallet) (cmd : command) : Ms (command * option error) :=
  emit (EvBlock (NetWrite (conn_id (conn c)) cmd));;
  match WriteJSON (conn c) cmd with
  | Some err =>
      emit (EvBlock (CloseSend (close c)));;
      mret ({| Command := 0; Data := [] |}, Some ("send command, " +:+ err))
  | None =>
      emit (EvBlock (NetRead (conn_id (conn c))));;
      let '(out, err) := ReadJSON (conn c) cmd in
      match err with
      | Some e => emit (EvBlock (CloseSend (close c)));; mret (out, Some e)
      | None => mret (out, None)
      end
  end.

Fixpoint WalletHas_addrs (addrs : list Address) (addr : Address) : bool :=
  match addrs with
  | [] => false
  | a :: addrs' => if decide (a = addr) then true else WalletHas_addrs addrs' addr
  end.

Fixpoint WalletHas_clients (cs : list (nat * clientWallet)) (addr : Address) : bool :=
  match cs with
  | [] => false
  | (_, c) :: cs' =>
      if WalletHas_addrs (addresses c) addr then true else WalletHas_clients cs' addr
  end.

Definition WalletHas (addr : Address) : Ms (bool * option error) :=
  Lock;;
  o ← get;
  let r := WalletHas_clients (range (clients o)) addr in
  Unlock;;
  mret (r, None).

Fixpoint WalletList_clients (cs : list (nat * clientWallet)) (acc : list Address)
  : list Address :=
  match cs with
  | [] => acc
  | (_, c) :: cs' => WalletList_clients cs' (acc ++ addresses c)
  end.

Definition WalletList : Ms (list Address * option error) :=
  Lock;;
  o ← get;
  let r := WalletList_clients (range (clients o)) [] in
  Unlock;;
  mret (r, None).

(** The body run when [a == signer]. *)
Definition WalletSign_roundtrip (c : clientWallet) (signer : Address) (toSign : bytes)
  (meta : MsgMeta) : Ms (option Signature * option error) :=
  let req := {| Signer := signer; ToSign := toSign; Meta := meta |} in
  let '(bytes, err) := Marshal_SignRequest req in
  match err with
  | Some e => mret (None, Some ("serialize resquest, " +:+ e))
  | None =>
      '(out, err) ← call c {| Command := CommandSignRequest; Data := bytes |};
      match err with
      | Some e => mret (None, Some e)
      | None =>
          match Unmarshal_SignResponse (Data out) with
          | inr e => mret (None, Some ("deserialize response, " +:+ e))
          | inl resp =>
              if decide (0 < String.length (SignResponse_Err resp))
              then mret (None, Some (SignResponse_Err resp))
              else mret (SignResponse_Signature resp, None)
          end
      end
  end.

(** The inner loop; [None] when it ends without returning. *)
Fixpoint WalletSign_addrs (c : clientWallet) (addrs : list Address) (signer : Address)
  (toSign : bytes) (meta : MsgMeta) : Ms (option (option Signature * option error)) :=
  match addrs with
  | [] => mret None
  | a :: addrs' =>
      if decide (a = signer)
      then r ← WalletSign_roundtrip c signer toSign meta; mret (Some r)
      else WalletSign_addrs c addrs' signer toSign meta
  end.

Fixpoint WalletSign_clients (cs : list (nat * clientWallet)) (signer : Address)
  (toSign : bytes) (meta : MsgMeta) : Ms (option Signature * option error) :=
  match cs with
  | [] => mret (None, Some "wallet not exist")
  | (_, c) :: cs' =>
      r ← WalletSign_addrs c (addresses c) signer toSign meta;
      match r with
      | Some res => mret res
      | None => WalletSign_clients cs' signer toSign meta
      end
  end.

Definition WalletSign (signer : Address) (toSign : bytes) (meta : MsgMeta)
  : Ms (option Signature * option error) :=
  Lock;;
  o ← get;
  r ← WalletSign_clients (range (clients o)) signer toSign meta;
  Unlock;;
  mret r.

(** [serve]: the handshake.  The close handler and the ping goroutine it
    installs run later, outside this call. *)
Definition serve (c : Conn) (close : nat) : Ms (option error) :=
  o ← get;
  let p := allocated o in
  put {| clients := clients o; allocated := S p |};;
  let client := {| addresses := []; conn := c; close := close |} in
  '(out, err) ← call client {| Command := CommandListWalletRequest; Data := [] |};
  match err with
  | Some e => mret (Some ("list wallets, " +:+ e))
  | None =>
      if decide (Command out ≠ CommandListWalletResponse)
      then mret (Some "expect list wallet response")
      else
        match Unmarshal_ListWalletResponse (Data out) with
        | inr e => mret (Some ("failed to decode addresses, " +:+ e))
        | inl resp =>
            let client := {| addresses := Addresses resp; conn := c; close := close |} in
            Lock;;
            o ← get;
            put {| clients := <[p := client]> (clients o); allocated := allocated o |};;
            Unlock;;
            mret None
        end
  end.

Definition WalletNew (keyType : KeyType) : Ms (Address * option error) :=
  mret (Undef, Some "not support to new wallet in a offline wallet").

Definition WalletExport (a : Address) : Ms (option KeyInfo * option error) :=
  mret (None, Some "not support to export a wallet from remote clientWallet").

Definition WalletImport (info : option KeyInfo) : Ms (Address * option error) :=
  mret (Undef, Some "not support to import a wallet into remote clientWallet").

Definition WalletDelete (a : Address) : Ms (option error) :=
  mret (Some "not support to delete a wallet from remote clientWallet").

(** The close handler [serve] installs for the [clientWallet] at [client]
    with the channel [close]; the log line it may write is not modelled. *)
Definition closeHandler (client : nat) (close : nat) (code : Z) (text : string)
  : Ms (option error) :=
  Lock;;
  o ← get;
  put {| clients := delete client (clients o); allocated := allocated o |};;
  emit (EvBlock (CloseSend close));;
  Unlock;;
  mret None.

(** The [*WalletServer] as the [api.WalletAPI] that [run] adds to the
    router. *)
Definition as_backend : WalletAPI WalletServer := {|
  Wallet.WalletNew := λ keyType o, let '((r, _), o') := WalletNew keyType o in (r, o');
  Wallet.WalletHas := λ addr o, let '((r, _), o') := WalletHas addr o in (r, o');
  Wallet.WalletList := λ o, let '((r, _), o') := WalletList o in (r, o');
  Wallet.WalletSign := λ signer toSign meta o,
    let '((r, _), o') := WalletSign signer toSign meta o in (r, o');
  Wallet.WalletExport := λ a o, let '((r, _), o') := WalletExport a o in (r, o');
  Wallet.WalletImport := λ info o, let '((r, _), o') := WalletImport info o in (r, o');
  Wallet.WalletDelete := λ a o, let '((r, _), o') := WalletDelete a o in (r, o')
|}.

(** Every registered [clientWallet] was allocated before. *)
Definition allocated_bound (o : WalletServer) : Prop :=
  ∀ p, is_Some (clients o !! p) → p < allocated o.

(** Some registered connection advertises [addr]. *)
Definition advertised (o : WalletServer) (addr : Address) : Prop :=
  ∃ p c, clients o !! p = Some c ∧ addr ∈ addresses c.

End Server.

(** *** main.go: one turn of the loop of [connect] *)

Inductive turn :=
| Reply (resp : command)
| Panic (e : error).

Section Client.

Context `{Json} {W : Type}.

Definition connect_turn (w : WalletAPI W) (out : command) (st : W) : turn * W :=
  if decide (Command out = CommandListWalletRequest) then
    let '((addrs, err), st') := Wallet.WalletList w st in
    let e := match err with Some e => e | None => "" end in
    let '(data, err) :=
      Marshal_ListWalletResponse {| Addresses := addrs; ListWalletResponse_Err := e |} in
    match err with
    | Some e' => (Panic e', st')
    | None => (Reply {| Command := CommandListWalletResponse; Data := data |}, st')
    end
  else if decide (Command out = CommandSignRequest) then
    let '((sig, e), st') :=
      match Unmarshal_SignRequest (Data out) with
      | inl req =>
          let '((sig, err), st') :=
            Wallet.WalletSign w (Signer req) (ToSign req) (Meta req) st in
          ((sig, match err with Some e => e | None => "" end), st')
      | inr err => ((None, err), st)
      end in
    let '(data, err) :=
      Marshal_SignResponse {| SignResponse_Signature := sig; SignResponse_Err := e |} in
    match err with
    | Some e' => (Panic e', st')
    | None => (Reply {| Command := CommandSignResponse; Data := data |}, st')
    end
  else (Reply {| Command := 0; Data := [] |}, st).

(** A connection that carries every command unchanged and whose far end
    is the [connect] loop over wallet [w], taking its turn in state [st].
    When the far end panics the read fails with [eof]. *)
Definition peer (id : nat) (w : WalletAPI W) (st : W) (eof : error) : Conn := {|
  conn_id := id;
  WriteJSON := λ _, None;
  ReadJSON := λ cmd,
    match fst (connect_turn w cmd st) with
    | Reply resp => (resp, None)
    | Panic _ => ({| Command := 0; Data := [] |}, Some eof)
    end
|}.

End Client.

End Relay.


(** ** Sample instances, used to run the definitions on concrete inputs *)

Module Sample.

(** Maps visited in the order of their list of entries. *)
#[local] Instance in_order : MapOrder := {|
  range_order := λ _ l, l;
  range_order_perm := λ _ l, reflexivity l
|}.

(** Key stores by name, and the backend that serves the store [name]. *)
Definition keys (name : string) (st : gmap string (list Address)) : list Address :=
  default [] (st !! name).

Definition keystore (name : string) : WalletAPI (gmap string (list Address)) := {|
  WalletNew := λ keyType st,
    let a := name +:+ "/" +:+ keyType in
    ((a, None), <[name := keys name st ++ [a]]> st);
  WalletHas := λ a st, ((bool_decide (a ∈ keys name st), None), st);
  WalletList := λ st, ((keys name st, None), st);
  WalletSign := λ signer toSign meta st,
    if bool_decide (signer ∈ keys name st)
    then ((Some {| SigType := x01; SigData := list_byte_of_string signer ++ toSign |}, None), st)
    else ((None, Some "key not found"), st);
  WalletExport := λ a st, ((None, Some "key store is sealed"), st);
  WalletImport := λ info st, ((Undef, Some "key store is sealed"), st);
  WalletDelete := λ a st, (None, <[name := filter (λ b, b ≠ a) (keys name st)]> st)
|}.

(** Backends {A: {addr1}, B: {addr1, addr2}}. *)
Definition two_stores : gmap string (list Address) :=
  <["A" := ["addr1"]]> (<["B" := ["addr1"; "addr2"]]> ∅).

Definition router_AB : MultiWallet (gmap string (list Address)) :=
  Add (Add NewMultiWallet (keystore "A")) (keystore "B").

(** [lotus-wallet run --safe] over store A, with store B added after it. *)
Definition router_safeA_B : MultiWallet (gmap string (list Address)) :=
  Add (Add NewMultiWallet (SafeWallet (keystore "A"))) (keystore "B").

(** A parser that takes the bytes starting with the version byte 1 for a
    content identifier. *)
#[local] Instance cid_v1 : Offline.CidLib := {|
  Offline.CidFromBytes := λ b,
    match b with
    | x01 :: _ => (length b, string_of_list_byte b, None)
    | _ => (0, "", Some "invalid cid")
    end;
  Offline.CidString := λ c, c
|}.

(** A verifier that accepts exactly the signatures made by [keystore]. *)
#[local] Instance sig_by_name : Offline.Sigs := {|
  Offline.Verify := λ sig addr payload,
    if decide (SigData sig = list_byte_of_string addr ++ payload) then None
    else Some "signature did not match"
|}.

Definition payload : bytes := [x01; x71; xa0; xe4].
Definition chain_msg : MsgMeta := {| Type_ := MTChainMsg; Extra := [] |}.

(** The wallet once [WalletSign "f1alice" payload chain_msg] has filed its
    request and is parked on channel 0. *)
Definition alice_waiting : Offline.OfflineWallet :=
  (Offline.WalletSign_register "f1alice" payload chain_msg
     (string_of_list_byte payload) Offline.empty).2.

(** A signature of [payload] made with the key of another address, and
    the submission that carries it under that address. *)
Definition mallory_sig : Signature :=
  {| SigType := x01; SigData := list_byte_of_string "f1mallory" ++ payload |}.

Definition mallory_submission : Offline.SignedMessage :=
  {| Offline.SM_UnsignedMessage :=
       {| Offline.UM_Address := "f1mallory";
          Offline.ToSign := payload;
          Offline.UM_Meta := {| Offline.Meta_Type := MTChainMsg; Offline.Meta_Extra := [] |} |};
     Offline.SM_Signature := mallory_sig |}.

(** The signature "f1alice" makes of [payload], submitted as the operator
    tool does. *)
Definition alice_submission : Offline.SignedMessage :=
  {| Offline.SM_UnsignedMessage :=
       {| Offline.UM_Address := "f1alice";
          Offline.ToSign := payload;
          Offline.UM_Meta := {| Offline.Meta_Type := MTChainMsg; Offline.Meta_Extra := [] |} |};
     Offline.SM_Signature :=
       {| SigType := x01; SigData := list_byte_of_string "f1alice" ++ payload |} |}.

(** "f1bob" files a request for the same payload and is parked on
    channel 1; his own signature of it. *)
Definition both_waiting : Offline.OfflineWallet :=
  (Offline.WalletSign_register "f1bob" payload chain_msg
     (string_of_list_byte payload) alice_waiting).2.

Definition bob_submission : Offline.SignedMessage :=
  {| Offline.SM_UnsignedMessage :=
       {| Offline.UM_Address := "f1bob";
          Offline.ToSign := payload;
          Offline.UM_Meta := {| Offline.Meta_Type := MTChainMsg; Offline.Meta_Extra := [] |} |};
     Offline.SM_Signature :=
       {| SigType := x01; SigData := list_byte_of_string "f1bob" ++ payload |} |}.

(** A length-free framing that stands in for JSON: a field is its bytes,
    each behind a byte 1, closed by a byte 0. *)
Fixpoint put_field (l : bytes) : bytes :=
  match l with
  | [] => [x00]
  | b :: l' => x01 :: b :: put_field l'
  end.

Fixpoint get_field (l : bytes) : option (bytes * bytes) :=
  match l with
  | x00 :: rest => Some ([], rest)
  | x01 :: b :: rest =>
      match get_field rest with
      | Some (f, rest') => Some (b :: f, rest')
      | None => None
      end
  | _ => None
  end.

Definition put_string (s : string) : bytes := put_field (list_byte_of_string s).

Definition get_string (l : bytes) : option (string * bytes) :=
  match get_field l with
  | Some (f, rest) => Some (string_of_list_byte f, rest)
  | None => None
  end.

Fixpoint put_strings (l : list string) : bytes :=
  match l with
  | [] => [x00]
  | s :: l' => x01 :: put_string s ++ put_strings l'
  end.

(** [n] bounds the number of strings read. *)
Fixpoint get_strings (n : nat) (l : bytes) : option (list string * bytes) :=
  match n, l with
  | _, x00 :: rest => Some ([], rest)
  | S n', x01 :: rest =>
      match get_string rest with
      | Some (s, rest') =>
          match get_strings n' rest' with
          | Some (ss, rest'') => Some (s :: ss, rest'')
          | None => None
          end
      | None => None
      end
  | _, _ => None
  end.

#[local] Instance framing : Relay.Json := {|
  Relay.Marshal_SignRequest := λ r,
    (put_string (Relay.Signer r) ++ put_field (Relay.ToSign r)
       ++ put_string (Type_ (Relay.Meta r)) ++ put_field (Extra (Relay.Meta r)), None);
  Relay.Unmarshal_SignRequest := λ b,
    match get_string b with
    | Some (signer, b1) =>
        match get_field b1 with
        | Some (toSign, b2) =>
            match get_string b2 with
            | Some (ty, b3) =>
                match get_field b3 with
                | Some (extra, []) =>
                    inl {| Relay.Signer := signer; Relay.ToSign := toSign;
                           Relay.Meta := {| Type_ := ty; Extra := extra |} |}
                | _ => inr "unexpected end of input"
                end
            | None => inr "unexpected end of input"
            end
        | None => inr "unexpected end of input"
        end
    | None => inr "unexpected end of input"
    end;
  Relay.Marshal_SignResponse := λ r,
    (match Relay.SignResponse_Signature r with
     | None => [x00]
     | Some sig => x01 :: SigType sig :: put_field (SigData sig)
     end ++ put_string (Relay.SignResponse_Err r), None);
  Relay.Unmarshal_SignResponse := λ b,
    match b with
    | x00 :: b1 =>
        match get_string b1 with
        | Some (e, []) =>
            inl {| Relay.SignResponse_Signature := None; Relay.SignResponse_Err := e |}
        | _ => inr "unexpected end of input"
        end
    | x01 :: ty :: b1 =>
        match get_field b1 with
        | Some (data, b2) =>
            match get_string b2 with
            | Some (e, []) =>
                inl {| Relay.SignResponse_Signature := Some {| SigType := ty; SigData := data |};
                       Relay.SignResponse_Err := e |}
            | _ => inr "unexpected end of input"
            end
        | None => inr "unexpected end of input"
        end
    | _ => inr "invalid character"
    end;
  Relay.Marshal_ListWalletResponse := λ r,
    (put_strings (Relay.Addresses r) ++ put_string (Relay.ListWalletResponse_Err r), None);
  Relay.Unmarshal_ListWalletResponse := λ b,
    match get_strings (length b) b with
    | Some (addrs, b1) =>
        match get_string b1 with
        | Some (e, []) =>
            inl {| Relay.Addresses := addrs; Relay.ListWalletResponse_Err := e |}
        | _ => inr "unexpected end of input"
        end
    | None => inr "invalid character"
    end
|}.

(** The far end of connection 7 runs [connect] over the key store B. *)
Definition peer_B : Relay.Conn :=
  Relay.peer 7 (keystore "B") two_stores "unexpected EOF".

(** The server once [serve] has accepted [peer_B]. *)
Definition server_with_B : Relay.WalletServer :=
  (Relay.serve peer_B 0 Relay.NewWalletServer).2.

(** The far end of [peer_B] behind a relay that relabels every command it
    carries back as kind 0. *)
Definition peer_B_relabelled : Relay.Conn := {|
  Relay.conn_id := 7;
  Relay.WriteJSON := Relay.WriteJSON peer_B;
  Relay.ReadJSON := λ cmd,
    ({| Relay.Command := 0; Relay.Data := Relay.Data (Relay.ReadJSON peer_B cmd).1 |},
     (Relay.ReadJSON peer_B cmd).2)
|}.

(** A far end that answers the list-wallets request with the right kind
    of command and bytes that do not decode. *)
Definition garbled : Relay.Conn := {|
  Relay.conn_id := 8;
  Relay.WriteJSON := λ _, None;
  Relay.ReadJSON := λ _,
    ({| Relay.Command := Relay.CommandListWalletResponse; Relay.Data := [xff] |}, None)
|}.

(** A key store that also exports and imports: the private key of an
    address is, here, its own bytes. *)
Definition vault (name : string) : WalletAPI (gmap string (list Address)) := {|
  WalletNew := WalletNew (keystore name);
  WalletHas := WalletHas (keystore name);
  WalletList := WalletList (keystore name);
  WalletSign := WalletSign (keystore name);
  WalletExport := λ a st,
    if bool_decide (a ∈ keys name st)
    then ((Some {| KeyInfo_Type := "secp256k1"; PrivateKey := list_byte_of_string a |},
           None), st)
    else ((None, Some "key not found"), st);
  WalletImport := λ info st,
    match info with
    | Some ki =>
        let a := string_of_list_byte (PrivateKey ki) in
        ((a, None), <[name := keys name st ++ [a]]> st)
    | None => ((Undef, Some "no key info"), st)
    end;
  WalletDelete := WalletDelete (keystore name)
|}.

(** A backend whose device is unplugged: it answers every call with an
    error. *)
Definition unplugged : WalletAPI (gmap string (list Address)) := {|
  WalletNew := λ _ st, ((Undef, Some "device not found"), st);
  WalletHas := λ _ st, ((false, Some "device not found"), st);
  WalletList := λ st, (([], Some "device not found"), st);
  WalletSign := λ _ _ _ st, ((None, Some "device not found"), st);
  WalletExport := λ _ st, ((None, Some "device not found"), st);
  WalletImport := λ _ st, ((Undef, Some "device not found"), st);
  WalletDelete := λ _ st, (Some "device not found", st)
|}.

Definition key_addr3 : KeyInfo :=
  {| KeyInfo_Type := "secp256k1"; PrivateKey := list_byte_of_string "addr3" |}.

(** Addresses written as their own text: "f1..." is a SECP256K1 address,
    "f3..." a BLS address, "f0..." an ID address, "f2..." an actor. *)
#[local] Instance text_addresses : Offline.AddressLib := {|
  Offline.NewFromString := λ s,
    match s with
    | "" => (Undef, Some "invalid address length")
    | _ => (s, None)
    end;
  Offline.NewFromBytes := λ b,
    match b with
    | [] => (Undef, Some "invalid address length")
    | _ => (string_of_list_byte b, None)
    end;
  Offline.Address_String := λ a, a;
  Offline.Address_Bytes := list_byte_of_string;
  Offline.Protocol := λ a,
    match a with
    | String "f"%char (String "0"%char _) => x00
    | String "f"%char (String "1"%char _) => x01
    | String "f"%char (String "2"%char _) => x02
    | String "f"%char (String "3"%char _) => x03
    | _ => xff
    end
|}.

(** A datastore held in a map; it never fails. *)
#[local] Instance map_store : Offline.Datastore (gmap string bytes) := {|
  Offline.NewKey := λ s, s;
  Offline.ds_Get := λ k d,
    match d !! k with
    | Some v => (v, None)
    | None => ([], Some Offline.ErrNotFound)
    end;
  Offline.ds_Put := λ k v d, (None, <[k := v]> d);
  Offline.ds_Delete := λ k d, (None, delete k d);
  Offline.ds_Query := λ prefix d,
    ((map_to_list (filter (λ kv, String.prefix prefix kv.1 = true) d)).*2, None)
|}.

Definition key_f1alice : KeyInfo :=
  {| KeyInfo_Type := "secp256k1"; PrivateKey := list_byte_of_string "f1alice" |}.

End Sample.

(* ===================================================================== *)
(** * Part II.  Proofs                                                    *)
(* ===================================================================== *)

(** Unfolds the plumbing of [M]: what is left is the pair of the value
    and the events, and the final state. *)
Ltac run :=
  cbv [mbind M_bind mret M_ret get put emit Lock Unlock]; cbn [fst snd app].

(** ** The safe-wallet decorator *)

Section SafeWalletProofs.

Context {W : Type}.
Implicit Types (s : WalletAPI W) (st : W).

(** C8. Whatever backend [s] it wraps and whatever the input and the
    state, the safe wallet's [WalletNew] and [WalletExport] return their
    fixed error (and leave the state alone), and its [WalletHas],
    [WalletList], [WalletSign] and [WalletDelete] return what the wrapped
    backend returns, value, error and state. *)
Theorem SafeWallet_restricts_and_delegates s :
  (∀ keyType st,
     WalletNew (SafeWallet s) keyType st
     = ((Undef, Some "safe wallet is enabled, use import instead of new"), st))
  ∧ (∀ address st,
       WalletExport (SafeWallet s) address st
       = ((None, Some "DO NOT EXPORT THIS WALLET"), st))
  ∧ (∀ address st, WalletHas (SafeWallet s) address st = WalletHas s address st)
  ∧ (∀ st, WalletList (SafeWallet s) st = WalletList s st)
  ∧ (∀ signer toSign meta st,
       WalletSign (SafeWallet s) signer toSign meta st = WalletSign s signer toSign meta st)
  ∧ (∀ address st, WalletDelete (SafeWallet s) address st = WalletDelete s address st).
Proof. repeat split. Qed.

(** C10. The safe wallet hands [WalletImport] to the wrapped backend and
    returns its result unchanged, while [WalletNew] and [WalletExport]
    stay disabled. *)
Theorem SafeWallet_WalletImport_delegates s info st :
  WalletImport (SafeWallet s) info st = WalletImport s info st
  ∧ (∀ keyType, ∃ e, WalletNew (SafeWallet s) keyType st = ((Undef, Some e), st))
  ∧ (∀ address, ∃ e, WalletExport (SafeWallet s) address st = ((None, Some e), st)).
Proof.
  split; [reflexivity|].
  split; intros; eexists; reflexivity.
Qed.

End SafeWalletProofs.

(** ** The router *)

Section MultiWalletProofs.

Context {W : Type}.
Implicit Types (w : WalletAPI W) (ws : list (WalletAPI W)) (st : W).

Lemma WalletNew_loop_app_fails keyType pre ws st st1 :
  new_fails keyType pre st st1 →
  WalletNew_loop (pre ++ ws) keyType st = WalletNew_loop ws keyType st1.
Proof.
  induction 1 as [|w pre st a e st1 st2 Hw _ IH]; [reflexivity|].
  simpl. rewrite Hw. exact IH.
Qed.

(** C7. [WalletNew] tries the backends in list order.  When the backends
    of [pre] all fail and the next one, [w], succeeds, the router returns
    [w]'s address and the state [w] left, whatever backends [post] follow;
    when every backend fails it returns the aggregate error; with a safe
    wallet in front of a backend whose [WalletNew] succeeds it returns
    that backend's new address. *)
Theorem MultiWallet_WalletNew_first_success keyType :
  (∀ pre w post st st1 a st2,
     new_fails keyType pre st st1 →
     WalletNew w keyType st1 = ((a, None), st2) →
     MultiWallet_WalletNew {| wallets := pre ++ w :: post |} keyType st = ((a, None), st2))
  ∧ (∀ ws st st',
       new_fails keyType ws st st' →
       MultiWallet_WalletNew {| wallets := ws |} keyType st
       = ((Undef, Some ("no wallet backends supporting key type: " +:+ keyType)), st'))
  ∧ (∀ s local st a st',
       WalletNew local keyType st = ((a, None), st') →
       MultiWallet_WalletNew {| wallets := [SafeWallet s; local] |} keyType st
       = ((a, None), st')).
Proof.
  unfold MultiWallet_WalletNew; simpl. split; [|split].
  - intros pre w post st st1 a st2 Hpre Hw.
    rewrite (WalletNew_loop_app_fails _ _ _ _ _ Hpre). simpl. by rewrite Hw.
  - intros ws st st' Hall.
    rewrite <- (app_nil_r ws), (WalletNew_loop_app_fails _ _ _ _ _ Hall). reflexivity.
  - intros s local st a st' Hl. by rewrite Hl.
Qed.

Lemma WalletList_addrs_spec (l : list Address) (seen : gset Address) (out : list Address) :
  seen = list_to_set out → NoDup out →
  ∃ out', WalletList_addrs l seen out = (list_to_set out', out')
          ∧ NoDup out'
          ∧ ∀ a, a ∈ out' ↔ a ∈ out ∨ a ∈ l.
Proof.
  revert seen out. induction l as [|a l IH]; intros seen out -> Hnd; simpl.
  - exists out. split_and!; [done..|]. set_solver.
  - destruct (decide (a ∈ (list_to_set out : gset Address))) as [Hin|Hnin].
    + destruct (IH _ out eq_refl Hnd) as (out' & -> & Hnd' & Hmem).
      exists out'. split_and!; [done..|].
      intros b. rewrite Hmem. set_solver.
    + destruct (IH ({[a]} ∪ list_to_set out) (out ++ [a])) as (out' & -> & Hnd' & Hmem).
      * rewrite list_to_set_app_L. set_solver.
      * apply NoDup_app. split_and!; [done| |apply NoDup_singleton].
        intros b Hb ->%list_elem_of_singleton. set_solver.
      * exists out'. split_and!; [done..|].
        intros b. rewrite Hmem. set_solver.
Qed.

Lemma WalletList_loop_spec ws st ls st' (seen : gset Address) (out : list Address) :
  lists_ok ws st ls st' →
  seen = list_to_set out → NoDup out →
  ∃ out', WalletList_loop ws seen out st = ((out', None), st')
          ∧ NoDup out'
          ∧ ∀ a, a ∈ out' ↔ a ∈ out ∨ ∃ l, l ∈ ls ∧ a ∈ l.
Proof.
  intros Hok. revert seen out.
  induction Hok as [st|w ws st l ls st1 st2 Hw _ IH]; intros seen out Hseen Hnd; simpl.
  - exists out. split_and!; [done..|]. set_solver.
  - rewrite Hw.
    destruct (WalletList_addrs_spec l seen out Hseen Hnd) as (out1 & -> & Hnd1 & Hmem1).
    destruct (IH _ out1 eq_refl Hnd1) as (out' & -> & Hnd' & Hmem).
    exists out'. split_and!; [done..|].
    intros a. rewrite Hmem, Hmem1. set_solver.
Qed.

(** C6. When the backends' [WalletList] calls return the lists [ls], the
    router's [WalletList] returns, with a nil error, a list in which every
    address of some list of [ls] occurs exactly once and no other address
    occurs. *)
Theorem MultiWallet_WalletList_union (m : MultiWallet W) st ls st' :
  lists_ok (wallets m) st ls st' →
  ∃ out, MultiWallet_WalletList m st = ((out, None), st')
         ∧ NoDup out
         ∧ ∀ a, a ∈ out ↔ ∃ l, l ∈ ls ∧ a ∈ l.
Proof.
  intros Hok.
  destruct (WalletList_loop_spec _ _ _ _ ∅ [] Hok eq_refl (NoDup_nil_2 (A:=string)))
    as (out & Heq & Hnd & Hmem).
  exists out. split_and!; [done..|].
  intros a. rewrite Hmem. set_solver.
Qed.

End MultiWalletProofs.

(** The backends {A: {addr1}, B: {addr1, addr2}} list as [addr1; addr2]. *)
Example MultiWallet_WalletList_AB :
  MultiWallet_WalletList Sample.router_AB Sample.two_stores
  = ((["addr1"; "addr2"], None), Sample.two_stores).
Proof. vm_compute. reflexivity. Qed.

Lemma MultiWallet_WalletList_union_witness :
  ∃ out, MultiWallet_WalletList Sample.router_AB Sample.two_stores
           = ((out, None), Sample.two_stores)
         ∧ NoDup out
         ∧ ∀ a, a ∈ out ↔ ∃ l, l ∈ [["addr1"]; ["addr1"; "addr2"]] ∧ a ∈ l.
Proof.
  apply (MultiWallet_WalletList_union Sample.router_AB Sample.two_stores
           [["addr1"]; ["addr1"; "addr2"]] Sample.two_stores).
  apply (lists_ok_cons _ _ _ _ _ Sample.two_stores); [reflexivity|].
  apply (lists_ok_cons _ _ _ _ _ Sample.two_stores); [reflexivity|].
  apply lists_ok_nil.
Defined.

(** A safe wallet over store A fails, store B then creates the key. *)
Lemma MultiWallet_WalletNew_first_success_witness :
  MultiWallet_WalletNew Sample.router_safeA_B "bls" Sample.two_stores
  = (("B/bls", None), <["B" := ["addr1"; "addr2"; "B/bls"]]> Sample.two_stores).
Proof.
  apply (proj1 (MultiWallet_WalletNew_first_success "bls")
           [SafeWallet (Sample.keystore "A")] (Sample.keystore "B") []
           Sample.two_stores Sample.two_stores).
  - eapply new_fails_cons; [reflexivity|apply new_fails_nil].
  - reflexivity.
Defined.

(** ** The offline queue *)

Section OfflineProofs.

Import Offline.
Context `{MapOrder} `{CidLib} `{Sigs}.
Implicit Types (o : OfflineWallet) (signer a : Address) (c : Cid).

Lemma elem_of_range `{Countable K} {V : Type} (m : gmap K V) (k : K) (v : V) :
  (k, v) ∈ range m ↔ m !! k = Some v.
Proof. unfold range. rewrite range_order_perm. apply elem_of_map_to_list. Qed.

Lemma WalletSign_register_run signer toSign meta c o :
  WalletSign_register signer toSign meta c o
  = ((chans o, [EvLock; EvUnlock]),
     {| unsigned :=
          <[signer := <[c := {| msg := {| UM_Address := signer; ToSign := toSign;
                                          UM_Meta := {| Meta_Type := Type_ meta;
                                                        Meta_Extra := Extra meta |} |};
                                ch := chans o |}]>
                        (default ∅ (unsigned o !! signer))]> (unsigned o);
        chans := S (chans o) |}).
Proof.
  unfold WalletSign_register. run.
  destruct (unsigned o !! signer) as [p|] eqn:Hp; cbn.
  - by rewrite Hp.
  - by rewrite lookup_insert_eq, insert_insert_eq.
Qed.

Lemma WalletSign_deferred_run signer c o :
  WalletSign_deferred signer c o
  = ((tt, [EvLock; EvUnlock]),
     {| unsigned := match unsigned o !! signer with
                    | Some p => <[signer := delete c p]> (unsigned o)
                    | None => unsigned o
                    end;
        chans := chans o |}).
Proof.
  unfold WalletSign_deferred. run.
  destruct (unsigned o !! signer) as [p|]; cbn; by destruct o.
Qed.

Lemma pending_register signer toSign meta c o a' c' :
  pending (WalletSign_register signer toSign meta c o).2 a' c'
  = if decide (a' = signer ∧ c' = c)
    then Some {| msg := {| UM_Address := signer; ToSign := toSign;
                           UM_Meta := {| Meta_Type := Type_ meta;
                                         Meta_Extra := Extra meta |} |};
                 ch := chans o |}
    else pending o a' c'.
Proof.
  rewrite WalletSign_register_run. unfold pending. cbn.
  destruct (decide (a' = signer)) as [->|Ha].
  - rewrite lookup_insert_eq. cbn.
    destruct (decide (c' = c)) as [->|Hc].
    + rewrite lookup_insert_eq. by rewrite decide_True.
    + rewrite lookup_insert_ne by done. rewrite decide_False by naive_solver.
      by destruct (unsigned o !! signer).
  - rewrite lookup_insert_ne by done. by rewrite decide_False by naive_solver.
Qed.

Lemma pending_deferred signer c o a' c' :
  pending (WalletSign_deferred signer c o).2 a' c'
  = if decide (a' = signer ∧ c' = c) then None else pending o a' c'.
Proof.
  rewrite WalletSign_deferred_run. unfold pending. cbn.
  destruct (decide (a' = signer)) as [->|Ha].
  - destruct (unsigned o !! signer) as [p|] eqn:Hp; cbn.
    + rewrite lookup_insert_eq. cbn.
      destruct (decide (c' = c)) as [->|Hc].
      * rewrite lookup_delete_eq. by rewrite decide_True.
      * rewrite lookup_delete_ne by done. by rewrite decide_False by naive_solver.
    + rewrite Hp. cbn. by destruct (decide _).
  - rewrite decide_False by naive_solver.
    destruct (unsigned o !! signer) as [p|]; [|done].
    by rewrite lookup_insert_ne.
Qed.

Lemma well_filed_register signer toSign meta n c o :
  CidFromBytes toSign = (n, c, None) →
  well_filed o → well_filed (WalletSign_register signer toSign meta c o).2.
Proof.
  intros Hc Hwf a' c' m. rewrite pending_register.
  destruct (decide _) as [[-> ->]|_]; [|apply Hwf].
  intros [= <-]. cbn. eauto.
Qed.

Lemma well_filed_deferred signer c o :
  well_filed o → well_filed (WalletSign_deferred signer c o).2.
Proof.
  intros Hwf a' c' m. rewrite pending_deferred.
  destruct (decide _); [done|apply Hwf].
Qed.

Lemma well_filed_empty : well_filed empty.
Proof. intros a c m. unfold pending. cbn. by rewrite lookup_empty. Qed.

Lemma Offline_WalletSign_run signer toSign meta w o n c :
  CidFromBytes toSign = (n, c, None) →
  Type_ meta = MTChainMsg →
  WalletSign signer toSign meta w o
  = ((select_case w,
      [EvLock; EvUnlock; EvBlock (Select (chans o) sign_timeout); EvLock; EvUnlock]),
     (WalletSign_deferred signer c
        (meanwhile w (WalletSign_register signer toSign meta c o).2)).2).
Proof.
  intros Hc Hm. unfold WalletSign. rewrite Hc.
  rewrite decide_False by (intros ?; congruence).
  unfold WalletSign_select. run.
  rewrite WalletSign_register_run. cbn [fst snd app].
  rewrite WalletSign_deferred_run. reflexivity.
Qed.

Lemma GetPendingMessages_inner_elem (p : list (Cid * PendingUnsignedMessage)) acc m :
  m ∈ GetPendingMessages_inner p acc ↔ m ∈ acc ∨ ∃ c e, (c, e) ∈ p ∧ msg e = m.
Proof.
  revert acc. induction p as [|[c e] p IH]; intros acc; simpl.
  - split; [by left|]. intros [?|(? & ? & ?%elem_of_nil & _)]; done.
  - rewrite IH, elem_of_app, list_elem_of_singleton. split.
    + intros [ [? | ->] | (c' & e' & Hin & Hm)]; [by left| |].
      * right. exists c, e. split; [left|done].
      * right. exists c', e'. split; [by right|done].
    + intros [?|(c' & e' & Hin & Hm)]; [by left; left|].
      apply elem_of_cons in Hin as [ [= -> ->] | Hin]; [by left; right|].
      right. by exists c', e'.
Qed.

Lemma GetPendingMessages_outer_elem
  (ps : list (Address * gmap Cid PendingUnsignedMessage)) acc m :
  m ∈ GetPendingMessages_outer ps acc
  ↔ m ∈ acc ∨ ∃ a p c e, (a, p) ∈ ps ∧ p !! c = Some e ∧ msg e = m.
Proof.
  revert acc. induction ps as [|[a p] ps IH]; intros acc; simpl.
  - split; [by left|]. intros [?|(? & ? & ? & ? & ?%elem_of_nil & _)]; done.
  - rewrite IH, GetPendingMessages_inner_elem. split.
    + intros [[?|(c & e & Hin & Hm)]|(a' & p' & c & e & Hin & Hl & Hm)]; [by left| |].
      * right. exists a, p, c, e. split_and!; [left|by apply elem_of_range|done].
      * right. exists a', p', c, e. split_and!; [by right|done..].
    + intros [?|(a' & p' & c & e & Hin & Hl & Hm)]; [by left; left|].
      apply elem_of_cons in Hin as [ [= -> ->] | Hin].
      * left; right. exists c, e. split; [by apply elem_of_range|done].
      * right. by exists a', p', c, e.
Qed.

(** [GetPendingMessages] returns the messages of the entries on file. *)
Lemma GetPendingMessages_elem o m :
  m ∈ (GetPendingMessages o).1.1.1 ↔ ∃ a c e, pending o a c = Some e ∧ msg e = m.
Proof.
  unfold GetPendingMessages. run.
  rewrite GetPendingMessages_outer_elem. unfold pending. split.
  - intros [?%elem_of_nil|(a & p & c & e & Hin%elem_of_range & Hl & Hm)]; [done|].
    exists a, c, e. by rewrite Hin.
  - intros (a & c & e & Hp & Hm). right.
    destruct (unsigned o !! a) as [p|] eqn:Ha; [|done].
    exists a, p, c, e. split_and!; [by apply elem_of_range|done..].
Qed.

Lemma GetPendingMessages_run o :
  ∃ l, GetPendingMessages o = ((l, None), [EvLock; EvUnlock], o).
Proof. unfold GetPendingMessages. run. eauto. Qed.

(** C2. A [WalletSign] that registers its request (the payload is a
    content identifier and the type is the chain-message type) returns
    the timeout error when nothing is delivered before the five minutes
    are over, and the delivered signature when one arrives earlier; either
    way the entry filed under [(signer, c)] is gone when it returns, and
    [GetPendingMessages] then lists no message of [signer] with content
    identifier [c]. *)
Theorem WalletSign_timeout_and_cleanup signer toSign meta w o n c :
  CidFromBytes toSign = (n, c, None) →
  Type_ meta = MTChainMsg →
  well_filed o →
  (∀ s, well_filed s → well_filed (meanwhile w s)) →
  ∃ r t o',
    WalletSign signer toSign meta w o = ((r, t), o')
    ∧ (nothing_delivered w → r = (None, Some "timeout to wait to submit signature"))
    ∧ (∀ d sig, delivery w = Some (d, sig) → (d < sign_timeout)%Z → r = (Some sig, None))
    ∧ pending o' signer c = None
    ∧ ∀ m, m ∈ (GetPendingMessages o').1.1.1 →
           ¬ (UM_Address m = signer ∧ ∃ n', CidFromBytes (ToSign m) = (n', c, None)).
Proof.
  intros Hc Hm Hwf Henv.
  eexists _, _, _. split; [by apply (Offline_WalletSign_run _ _ _ _ _ n c)|].
  split_and!.
  - unfold nothing_delivered, select_case.
    destruct (delivery w) as [[d sig]|]; [|done].
    intros Hlt.
    rewrite (proj2 (Z.ltb_ge _ _)) by lia.
    by rewrite (proj2 (Z.eqb_neq _ _)) by lia.
  - intros d sig Hd Hlt. unfold select_case. rewrite Hd.
    by rewrite (proj2 (Z.ltb_lt _ _)) by lia.
  - rewrite pending_deferred. by rewrite decide_True.
  - intros m (a & c' & e & Hp & <-)%GetPendingMessages_elem [Ha (n' & Hc')].
    assert (Hwf' : well_filed
              (WalletSign_deferred signer c
                 (meanwhile w (WalletSign_register signer toSign meta c o).2)).2).
    { apply well_filed_deferred, Henv. by eapply well_filed_register. }
    destruct (Hwf' _ _ _ Hp) as [Ha' (n'' & Hc'')].
    rewrite Hc' in Hc''. injection Hc'' as _ <-.
    rewrite pending_deferred in Hp. rewrite decide_True in Hp; [done|].
    split; congruence.
Qed.

(** C9. A payload that does not parse as a content identifier is refused
    with the parser's error before the type of [meta] is looked at: no
    lock is taken and the wallet is left as it was.  More generally, unless
    the payload is a content identifier and the type is the chain-message
    type, [WalletSign] returns an error without filing anything; when both
    hold, the request is filed under [(signer, c)]. *)
Theorem WalletSign_rejects_non_cid signer toSign meta w o :
  (∀ n c e, CidFromBytes toSign = (n, c, Some e) →
     WalletSign signer toSign meta w o = ((None, Some e), [], o))
  ∧ ((¬ ∃ n c, CidFromBytes toSign = (n, c, None) ∧ Type_ meta = MTChainMsg) →
     ∃ e, WalletSign signer toSign meta w o = ((None, Some e), [], o))
  ∧ (∀ n c, CidFromBytes toSign = (n, c, None) → Type_ meta = MTChainMsg →
     pending (WalletSign_register signer toSign meta c o).2 signer c
     = Some {| msg := {| UM_Address := signer; ToSign := toSign;
                         UM_Meta := {| Meta_Type := Type_ meta;
                                       Meta_Extra := Extra meta |} |};
               ch := chans o |}).
Proof.
  split_and!.
  - intros n c e Hc. unfold WalletSign. by rewrite Hc.
  - intros Hno. unfold WalletSign.
    destruct (CidFromBytes toSign) as [[n c] [e|]] eqn:Hc; [by eexists|].
    destruct (decide (Type_ meta ≠ MTChainMsg)) as [Hm|Hm]; [by eexists|].
    destruct Hno. exists n, c. split; [done|].
    by destruct (decide (Type_ meta = MTChainMsg)).
  - intros n c _ _. rewrite pending_register. by rewrite decide_True.
Qed.

(** *** [SubmitSignature] *)

Lemma SubmitSignature_inner_Some (p : list (Cid * PendingUnsignedMessage)) cid m :
  SubmitSignature_inner p cid = Some m → (cid, m) ∈ p.
Proof.
  induction p as [|[c e] p IH]; simpl; [done|].
  destruct (decide (c = cid)) as [->|_].
  - intros [= ->]. left.
  - intros ?. right. auto.
Qed.

Lemma SubmitSignature_inner_None (p : list (Cid * PendingUnsignedMessage)) cid :
  SubmitSignature_inner p cid = None → ∀ m, (cid, m) ∉ p.
Proof.
  induction p as [|[c e] p IH]; simpl; intros Hn m Hin.
  - by apply elem_of_nil in Hin.
  - destruct (decide (c = cid)) as [->|Hc]; [done|].
    apply elem_of_cons in Hin as [ [= <- _] | Hin]; [done|]. by eapply IH.
Qed.

Lemma SubmitSignature_outer_Some
  (ps : list (Address * gmap Cid PendingUnsignedMessage)) cid m :
  SubmitSignature_outer ps cid = Some m → ∃ a p, (a, p) ∈ ps ∧ p !! cid = Some m.
Proof.
  induction ps as [|[a p] ps IH]; simpl; [done|].
  destruct (SubmitSignature_inner (range p) cid) as [m'|] eqn:Hin.
  - intros [= ->]. exists a, p. split; [left|].
    by apply elem_of_range, SubmitSignature_inner_Some.
  - intros (a' & p' & ? & ?)%IH. exists a', p'. split; [by right|done].
Qed.

Lemma SubmitSignature_outer_None
  (ps : list (Address * gmap Cid PendingUnsignedMessage)) cid :
  SubmitSignature_outer ps cid = None → ∀ a p, (a, p) ∈ ps → p !! cid = None.
Proof.
  induction ps as [|[a p] ps IH]; simpl; intros Hn a' p' Hin.
  - by apply elem_of_nil in Hin.
  - destruct (SubmitSignature_inner (range p) cid) as [m'|] eqn:Hi; [done|].
    apply elem_of_cons in Hin as [ [= -> ->] | Hin]; [|by eapply IH].
    destruct (p !! cid) as [m|] eqn:Hl; [|done].
    apply elem_of_range in Hl. by eapply SubmitSignature_inner_None in Hl.
Qed.

(** [SubmitSignature] never writes to the wallet. *)
Lemma SubmitSignature_state message o : (SubmitSignature message o).2 = o.
Proof.
  unfold SubmitSignature.
  destruct (CidFromBytes _) as [[n cid] [e|]]; [done|].
  destruct (Verify _ _ _); [done|]. run.
  by destruct (SubmitSignature_outer _ _).
Qed.

(** A submission that [sigs.Verify] refuses, for the address and the
    payload the submission itself carries, is answered with the verifier's
    error; nothing is sent and nothing is locked. *)
Lemma SubmitSignature_refused message o n cid e :
  CidFromBytes (ToSign (SM_UnsignedMessage message)) = (n, cid, None) →
  Verify (SM_Signature message) (UM_Address (SM_UnsignedMessage message))
    (ToSign (SM_UnsignedMessage message)) = Some e →
  SubmitSignature message o = ((Some e, []), o).
Proof. intros Hc Hv. unfold SubmitSignature. by rewrite Hc, Hv. Qed.

(** A submission that [sigs.Verify] accepts is sent on the channel of an
    entry with the same content identifier, filed under some address. *)
Lemma SubmitSignature_delivers message o n cid :
  CidFromBytes (ToSign (SM_UnsignedMessage message)) = (n, cid, None) →
  Verify (SM_Signature message) (UM_Address (SM_UnsignedMessage message))
    (ToSign (SM_UnsignedMessage message)) = None →
  (∃ a m, pending o a cid = Some m) →
  ∃ a m, pending o a cid = Some m
         ∧ SubmitSignature message o
           = ((None, [EvLock; EvBlock (ChanSend (ch m) (SM_Signature message)); EvUnlock]), o).
Proof.
  intros Hc Hv (a & m & Hp). unfold SubmitSignature. rewrite Hc, Hv. run.
  destruct (SubmitSignature_outer _ _) as [m'|] eqn:Ho.
  - apply SubmitSignature_outer_Some in Ho as (a' & p' & Hin%elem_of_range & Hl).
    exists a', m'. split; [|done]. unfold pending. by rewrite Hin.
  - unfold pending in Hp. destruct (unsigned o !! a) as [p|] eqn:Ha; [|done].
    apply elem_of_range in Ha.
    cbn in Hp. by rewrite (SubmitSignature_outer_None _ _ Ho _ _ Ha) in Hp.
Qed.

(** X22. The course of events the operator tool produces: it submits the
    message it was shown.  A refused signature leaves the entry on file,
    and a later good one for the same message is sent on the entry's
    channel, provided no other address has the same content identifier on
    file. *)
Lemma SubmitSignature_retry o a cid n m bad good e :
  pending o a cid = Some m →
  (∀ a' m', pending o a' cid = Some m' → a' = a) →
  CidFromBytes (ToSign (msg m)) = (n, cid, None) →
  Verify bad (UM_Address (msg m)) (ToSign (msg m)) = Some e →
  Verify good (UM_Address (msg m)) (ToSign (msg m)) = None →
  let o1 := (SubmitSignature {| SM_UnsignedMessage := msg m; SM_Signature := bad |} o).2 in
  SubmitSignature {| SM_UnsignedMessage := msg m; SM_Signature := bad |} o = ((Some e, []), o)
  ∧ pending o1 a cid = Some m
  ∧ SubmitSignature {| SM_UnsignedMessage := msg m; SM_Signature := good |} o1
    = ((None, [EvLock; EvBlock (ChanSend (ch m) good); EvUnlock]), o1).
Proof.
  intros Hp Huniq Hc Hbad Hgood o1. subst o1.
  rewrite (SubmitSignature_refused {| SM_UnsignedMessage := msg m; SM_Signature := bad |}
             o n cid e Hc Hbad). cbn [snd].
  split_and!; [done..|].
  destruct (SubmitSignature_delivers {| SM_UnsignedMessage := msg m; SM_Signature := good |}
              o n cid Hc Hgood) as (a' & m' & Hp' & ->); [by eauto|].
  rewrite (Huniq _ _ Hp') in Hp'. by simplify_eq.
Qed.

End OfflineProofs.

Section OfflineExamples.

Import Offline.
#[local] Existing Instances Sample.in_order Sample.cid_v1 Sample.sig_by_name.

Example sign_timeout_is_five_minutes : sign_timeout = (5 * 60 * 1000000000)%Z.
Proof. reflexivity. Qed.

Lemma WalletSign_timeout_and_cleanup_witness :
  ∃ r t o',
    WalletSign "f1alice" Sample.payload Sample.chain_msg
      {| delivery := None; tie_recv := false; meanwhile := id |} empty = ((r, t), o')
    ∧ (nothing_delivered {| delivery := None; tie_recv := false; meanwhile := id |} →
       r = (None, Some "timeout to wait to submit signature"))
    ∧ (∀ d sig, delivery {| delivery := None; tie_recv := false; meanwhile := id |}
                = Some (d, sig) → (d < sign_timeout)%Z → r = (Some sig, None))
    ∧ pending o' "f1alice" (string_of_list_byte Sample.payload) = None
    ∧ ∀ m, m ∈ (GetPendingMessages o').1.1.1 →
           ¬ (UM_Address m = "f1alice"
              ∧ ∃ n', CidFromBytes (ToSign m)
                      = (n', string_of_list_byte Sample.payload, None)).
Proof.
  apply (WalletSign_timeout_and_cleanup "f1alice" Sample.payload Sample.chain_msg
           {| delivery := None; tie_recv := false; meanwhile := id |} empty 4).
  - reflexivity.
  - reflexivity.
  - apply well_filed_empty.
  - intros s Hs. exact Hs.
Defined.

Lemma WalletSign_rejects_non_cid_witness :
  WalletSign "f1alice" [x00; x01] {| Type_ := "unknown"; Extra := [] |}
    {| delivery := None; tie_recv := false; meanwhile := id |} empty
  = ((None, Some "invalid cid"), [], empty).
Proof.
  apply (proj1 (WalletSign_rejects_non_cid "f1alice" [x00; x01]
                  {| Type_ := "unknown"; Extra := [] |}
                  {| delivery := None; tie_recv := false; meanwhile := id |} empty)
           0 "").
  reflexivity.
Defined.

(** C1, on the code.  "f1alice" has a request for [payload] on file and
    waits on channel 0.  A submission that names another address and
    carries that address's signature of the same payload does not verify
    against the address on file; [SubmitSignature] checks it against the
    address the submission names, finds the entry by content identifier
    alone, returns no error and sends the signature on channel 0, so the
    waiting [WalletSign] of "f1alice" returns it. *)
Theorem SubmitSignature_delivers_foreign_signature :
  pending Sample.alice_waiting "f1alice" (string_of_list_byte Sample.payload)
  = Some {| msg := {| UM_Address := "f1alice"; ToSign := Sample.payload;
                      UM_Meta := {| Meta_Type := MTChainMsg; Meta_Extra := [] |} |};
            ch := 0 |}
  ∧ Verify Sample.mallory_sig "f1alice" Sample.payload = Some "signature did not match"
  ∧ SubmitSignature Sample.mallory_submission Sample.alice_waiting
    = ((None, [EvLock; EvBlock (ChanSend 0 Sample.mallory_sig); EvUnlock]),
       Sample.alice_waiting)
  ∧ (WalletSign "f1alice" Sample.payload Sample.chain_msg
       {| delivery := Some (1%Z, Sample.mallory_sig); tie_recv := false; meanwhile := id |}
       empty).1.1
    = (Some Sample.mallory_sig, None).
Proof. split_and!; vm_compute; reflexivity. Qed.

(** With two addresses waiting for the same payload, the scan stops at
    the first entry with that content identifier: here the signature
    "f1bob" made for his own request, which verifies, is sent on the channel
    of "f1alice" (channel 0) and not on his (channel 1). *)
Example SubmitSignature_crosses_addresses :
  ch <$> pending Sample.both_waiting "f1bob" (string_of_list_byte Sample.payload) = Some 1
  ∧ Verify (SM_Signature Sample.bob_submission) "f1bob" Sample.payload = None
  ∧ SubmitSignature Sample.bob_submission Sample.both_waiting
    = ((None, [EvLock; EvBlock (ChanSend 0 (SM_Signature Sample.bob_submission)); EvUnlock]),
       Sample.both_waiting).
Proof. split_and!; vm_compute; reflexivity. Qed.

End OfflineExamples.

(** ** The relay *)

Section RelayProofs.

Import Relay.
Context `{MapOrder} `{Json}.
Implicit Types (o : WalletServer) (c : clientWallet) (signer : Address).

Lemma call_run c cmd o :
  call c cmd o
  = match WriteJSON (conn c) cmd with
    | Some e =>
        (({| Command := 0; Data := [] |}, Some ("send command, " +:+ e)),
         [EvBlock (NetWrite (conn_id (conn c)) cmd); EvBlock (CloseSend (close c))], o)
    | None =>
        match ReadJSON (conn c) cmd with
        | (out, Some e) =>
            ((out, Some e),
             [EvBlock (NetWrite (conn_id (conn c)) cmd); EvBlock (NetRead (conn_id (conn c)));
              EvBlock (CloseSend (close c))], o)
        | (out, None) =>
            ((out, None),
             [EvBlock (NetWrite (conn_id (conn c)) cmd); EvBlock (NetRead (conn_id (conn c)))],
             o)
        end
    end.
Proof.
  unfold call. run.
  destruct (WriteJSON (conn c) cmd) as [e|]; [done|].
  by destruct (ReadJSON (conn c) cmd) as [out [e|]].
Qed.

(** What the server makes of a reply that decoded. *)
Lemma WalletSign_roundtrip_run c signer toSign meta o data :
  Marshal_SignRequest {| Signer := signer; ToSign := toSign; Meta := meta |} = (data, None) →
  let cmd := {| Command := CommandSignRequest; Data := data |} in
  let id := conn_id (conn c) in
  WalletSign_roundtrip c signer toSign meta o
  = match WriteJSON (conn c) cmd with
    | Some e =>
        ((None, Some ("send command, " +:+ e)),
         [EvBlock (NetWrite id cmd); EvBlock (CloseSend (close c))], o)
    | None =>
        match ReadJSON (conn c) cmd with
        | (out, Some e) =>
            ((None, Some e),
             [EvBlock (NetWrite id cmd); EvBlock (NetRead id); EvBlock (CloseSend (close c))],
             o)
        | (out, None) =>
            (match Unmarshal_SignResponse (Data out) with
             | inr e => (None, Some ("deserialize response, " +:+ e))
             | inl resp =>
                 if decide (0 < String.length (SignResponse_Err resp))
                 then (None, Some (SignResponse_Err resp))
                 else (SignResponse_Signature resp, None)
             end,
             [EvBlock (NetWrite id cmd); EvBlock (NetRead id)], o)
        end
    end.
Proof.
  intros Hm cmd id. unfold WalletSign_roundtrip. rewrite Hm. run.
  rewrite call_run. fold cmd id.
  destruct (WriteJSON (conn c) cmd) as [e|]; [done|].
  destruct (ReadJSON (conn c) cmd) as [out [e|]]; [done|].
  destruct (Unmarshal_SignResponse (Data out)) as [resp|e]; [|done].
  by destruct (decide _).
Qed.

(** The round trip leaves the registry alone, and all it does is block. *)
Lemma WalletSign_roundtrip_shape c signer toSign meta o :
  ∃ r bs, WalletSign_roundtrip c signer toSign meta o = ((r, EvBlock <$> bs), o).
Proof.
  destruct (Marshal_SignRequest {| Signer := signer; ToSign := toSign; Meta := meta |})
    as [data [e|]] eqn:Hm.
  - unfold WalletSign_roundtrip. rewrite Hm. by exists (None, Some ("serialize resquest, " +:+ e)), [].
  - rewrite (WalletSign_roundtrip_run _ _ _ _ _ data Hm).
    destruct (WriteJSON _ _) as [e|].
    { by eexists _, [_; _]. }
    destruct (ReadJSON _ _) as [out [e|]].
    { by eexists _, [_; _; _]. }
    by eexists _, [_; _].
Qed.

Lemma WalletSign_addrs_run c addrs signer toSign meta o :
  WalletSign_addrs c addrs signer toSign meta o
  = if decide (signer ∈ addrs)
    then ((Some (WalletSign_roundtrip c signer toSign meta o).1.1,
           (WalletSign_roundtrip c signer toSign meta o).1.2), o)
    else ((None, []), o).
Proof.
  induction addrs as [|a addrs IH]; simpl; [reflexivity|].
  - destruct (decide (a = signer)) as [->|Hne].
    + rewrite decide_True by left. run.
      destruct (WalletSign_roundtrip_shape c signer toSign meta o) as (r & bs & ->).
      cbn. by rewrite app_nil_r.
    + rewrite IH. destruct (decide (signer ∈ addrs)) as [Hin|Hnin].
      * by rewrite decide_True by (by right).
      * rewrite decide_False; [done|].
        intros [?|?]%elem_of_cons; congruence.
Qed.

Lemma WalletSign_clients_none (cs : list (nat * clientWallet)) signer toSign meta o :
  (∀ p c, (p, c) ∈ cs → signer ∉ addresses c) →
  WalletSign_clients cs signer toSign meta o = ((None, Some "wallet not exist"), [], o).
Proof.
  induction cs as [|[p c] cs IH]; intros Hno; simpl; [done|]. run.
  rewrite WalletSign_addrs_run.
  rewrite decide_False by (apply (Hno p); left).
  rewrite IH; [done|]. intros p' c' Hin. apply (Hno p'). by right.
Qed.

Lemma WalletSign_clients_some (cs : list (nat * clientWallet)) signer toSign meta o :
  (∃ p c, (p, c) ∈ cs ∧ signer ∈ addresses c) →
  ∃ p c, (p, c) ∈ cs ∧ signer ∈ addresses c
         ∧ WalletSign_clients cs signer toSign meta o
           = WalletSign_roundtrip c signer toSign meta o.
Proof.
  induction cs as [|[p c] cs IH]; intros (p0 & c0 & Hin & Hadv).
  { by apply elem_of_nil in Hin. }
  simpl. run. rewrite WalletSign_addrs_run.
  destruct (decide (signer ∈ addresses c)) as [Hc|Hc].
  - exists p, c. split_and!; [left|done|].
    destruct (WalletSign_roundtrip_shape c signer toSign meta o) as (r & bs & ->).
    cbn. by rewrite app_nil_r.
  - apply elem_of_cons in Hin as [ [= -> ->] | Hin]; [done|].
    destruct IH as (p' & c' & Hin' & Hadv' & Heq); [by eauto|].
    exists p', c'. split_and!; [by right|done|].
    rewrite Heq.
    by destruct (WalletSign_roundtrip_shape c' signer toSign meta o) as (r & bs & ->).
Qed.

Lemma length_pos_nonempty (e : string) : 0 < String.length e ↔ e ≠ "".
Proof. destruct e; simpl; split; (done || lia). Qed.

Lemma Relay_WalletSign_run signer toSign meta o :
  WalletSign signer toSign meta o
  = (((WalletSign_clients (range (clients o)) signer toSign meta o).1.1,
      EvLock :: (WalletSign_clients (range (clients o)) signer toSign meta o).1.2
        ++ [EvUnlock]),
     (WalletSign_clients (range (clients o)) signer toSign meta o).2).
Proof.
  unfold WalletSign. run.
  by destruct (WalletSign_clients _ _ _ _ _) as [[r t] o'].
Qed.

(** C4. When a registered connection advertises [signer] and the request
    {signer, toSign, meta} marshals to [data], which decodes to the same
    request, [WalletSign] writes the command {CommandSignRequest, data} to
    a registered connection [c] that advertises [signer], and it writes no
    other command.  When the reply of [c] decodes to a response with a
    non-empty [Err], that string is the error returned and the signature
    field is not looked at; with an empty [Err] the signature field is
    returned as it came. *)
Theorem WalletSign_relay_round_trip o signer toSign meta data :
  let req := {| Signer := signer; ToSign := toSign; Meta := meta |} in
  let cmd := {| Command := CommandSignRequest; Data := data |} in
  (∃ p c, clients o !! p = Some c ∧ signer ∈ addresses c) →
  Marshal_SignRequest req = (data, None) →
  Unmarshal_SignRequest data = inl req →
  ∃ p c r bs,
    clients o !! p = Some c ∧ signer ∈ addresses c
    ∧ WalletSign signer toSign meta o = ((r, EvLock :: (EvBlock <$> bs) ++ [EvUnlock]), o)
    ∧ head bs = Some (NetWrite (conn_id (conn c)) cmd)
    ∧ (∀ id cmd', NetWrite id cmd' ∈ bs →
         id = conn_id (conn c) ∧ Command cmd' = CommandSignRequest
         ∧ Unmarshal_SignRequest (Data cmd') = inl req)
    ∧ (∀ out resp,
         WriteJSON (conn c) cmd = None →
         ReadJSON (conn c) cmd = (out, None) →
         Unmarshal_SignResponse (Data out) = inl resp →
         (SignResponse_Err resp ≠ "" → r = (None, Some (SignResponse_Err resp)))
         ∧ (SignResponse_Err resp = "" → r = (SignResponse_Signature resp, None))).
Proof.
  intros req cmd (p0 & c0 & Hl & Hadv) Hm Hu.
  destruct (WalletSign_clients_some (range (clients o)) signer toSign meta o)
    as (p & c & Hin%elem_of_range & Hadv' & Heq).
  { exists p0, c0. split; [by apply elem_of_range|done]. }
  rewrite (WalletSign_roundtrip_run c signer toSign meta o data Hm) in Heq.
  fold cmd in Heq.
  exists p, c. rewrite Relay_WalletSign_run, Heq.
  destruct (WriteJSON (conn c) cmd) as [e|] eqn:Hw.
  { eexists _, [_; _]. split_and!; [done..| |done].
    intros id cmd'. rewrite !elem_of_cons, elem_of_nil. naive_solver. }
  destruct (ReadJSON (conn c) cmd) as [out [e|]] eqn:Hr.
  { eexists _, [_; _; _]. split_and!; [done..| |].
    - intros id cmd'. rewrite !elem_of_cons, elem_of_nil. naive_solver.
    - intros out' resp _ [=]. }
  eexists _, [_; _]. split_and!; [done..| |].
  - intros id cmd'. rewrite !elem_of_cons, elem_of_nil. naive_solver.
  - intros out' resp _ [= <-] ->. cbn [fst snd].
    destruct (decide (0 < String.length (SignResponse_Err resp))) as [Hpos|Hz].
    + apply length_pos_nonempty in Hpos. split; [done|]. intros ?. done.
    + split; [|done]. intros Hne. by apply length_pos_nonempty in Hne.
Qed.

(** [WalletHas] and [WalletList] take the same mutex for their scan. *)
Lemma WalletHas_WalletList_take_mutex o addr :
  (∃ b, WalletHas addr o = ((b, None), [EvLock; EvUnlock], o))
  ∧ (∃ l, WalletList o = ((l, None), [EvLock; EvUnlock], o)).
Proof. split; eexists; reflexivity. Qed.

(** X13. The round trip against a far end that runs [connect] over the wallet
    [w]: the wallet is asked to sign exactly {signer, toSign, meta}, and
    the server returns its signature, or its error when it has one. *)
Lemma WalletSign_roundtrip_through_connect {W : Type} (w : WalletAPI W) (st st' : W)
  (eof : error) c o signer toSign meta data sig err rdata :
  let req := {| Signer := signer; ToSign := toSign; Meta := meta |} in
  let e := match err with Some e => e | None => "" end in
  let resp := {| SignResponse_Signature := sig; SignResponse_Err := e |} in
  conn c = peer (conn_id (conn c)) w st eof →
  Marshal_SignRequest req = (data, None) →
  Unmarshal_SignRequest data = inl req →
  Wallet.WalletSign w signer toSign meta st = ((sig, err), st') →
  Marshal_SignResponse resp = (rdata, None) →
  Unmarshal_SignResponse rdata = inl resp →
  (WalletSign_roundtrip c signer toSign meta o).1.1
  = if decide (e = "") then (sig, None) else (None, Some e).
Proof.
  intros req e resp Hconn Hm Hu Hw Hmr Hur.
  rewrite (WalletSign_roundtrip_run c signer toSign meta o data Hm).
  rewrite Hconn. cbn. unfold connect_turn. cbn.
  rewrite decide_False by done. rewrite decide_True by done.
  rewrite Hu. fold req. cbn. rewrite Hw. fold e resp. rewrite Hmr. cbn.
  rewrite Hur. cbn.
  destruct (decide (0 < String.length e)) as [Hpos|Hz].
  - apply length_pos_nonempty in Hpos. by rewrite decide_False.
  - rewrite decide_True; [done|].
    destruct (decide (e = "")) as [|Hne]; [done|].
    by apply length_pos_nonempty in Hne.
Qed.

(** What [serve] does with a reply that arrives, has the right kind and
    decodes. *)
Lemma serve_registers o (c : Conn) close out resp :
  let cmd := {| Command := CommandListWalletRequest; Data := [] |} in
  WriteJSON c cmd = None →
  ReadJSON c cmd = (out, None) →
  Command out = CommandListWalletResponse →
  Unmarshal_ListWalletResponse (Data out) = inl resp →
  serve c close o
  = ((None, [EvBlock (NetWrite (conn_id c) cmd); EvBlock (NetRead (conn_id c));
             EvLock; EvUnlock]),
     {| clients := <[allocated o := {| addresses := Addresses resp; conn := c;
                                       close := close |}]> (clients o);
        allocated := S (allocated o) |}).
Proof.
  intros cmd Hw Hr Hk Hd. unfold serve. run. rewrite call_run. cbn.
  fold cmd. rewrite Hw, Hr. cbn.
  rewrite decide_False by (intros ?; congruence). by rewrite Hd.
Qed.

(** C5. When the list-wallets request cannot be written, or no reply can
    be read, or the reply is of another kind, or its data do not decode as
    a list-wallets response, [serve] returns an error and the registry is
    what it was; a later [WalletSign] for an address that no registered
    connection advertises then writes to no connection and returns the error
    "wallet not exist". *)
Theorem serve_rejects_bad_handshake o (c : Conn) close :
  let cmd := {| Command := CommandListWalletRequest; Data := [] |} in
  ((∃ e, WriteJSON c cmd = Some e)
   ∨ (∃ out e, ReadJSON c cmd = (out, Some e))
   ∨ (∃ out, ReadJSON c cmd = (out, None) ∧ Command out ≠ CommandListWalletResponse)
   ∨ (∃ out e, ReadJSON c cmd = (out, None)
               ∧ Unmarshal_ListWalletResponse (Data out) = inr e)) →
  ∃ e t o',
    serve c close o = ((Some e, t), o')
    ∧ clients o' = clients o
    ∧ ∀ signer toSign meta,
        (∀ p c', clients o !! p = Some c' → signer ∉ addresses c') →
        WalletSign signer toSign meta o'
        = ((None, Some "wallet not exist"), [EvLock; EvUnlock], o').
Proof.
  intros cmd Hbad.
  assert (Hsign : ∀ o', clients o' = clients o →
            ∀ signer toSign meta,
              (∀ p c', clients o !! p = Some c' → signer ∉ addresses c') →
              WalletSign signer toSign meta o'
              = ((None, Some "wallet not exist"), [EvLock; EvUnlock], o')).
  { intros o' Ho' signer toSign meta Hno.
    rewrite Relay_WalletSign_run, WalletSign_clients_none; [done|].
    intros p c' Hin%elem_of_range. rewrite Ho' in Hin. by eapply Hno. }
  unfold serve. run. rewrite call_run. cbn. fold cmd.
  destruct (WriteJSON c cmd) as [e|] eqn:Hw.
  { eexists _, _, _. split; [reflexivity|]. split; [done|]. by apply Hsign. }
  destruct (ReadJSON c cmd) as [out [e|]] eqn:Hr.
  { eexists _, _, _. split; [reflexivity|]. split; [done|]. by apply Hsign. }
  cbn. destruct (decide (Command out ≠ CommandListWalletResponse)) as [Hk|Hk].
  { eexists _, _, _. split; [reflexivity|]. split; [done|]. by apply Hsign. }
  destruct (Unmarshal_ListWalletResponse (Data out)) as [resp|e] eqn:Hd.
  2:{ eexists _, _, _. split; [reflexivity|]. split; [done|]. by apply Hsign. }
  destruct Hbad as [(e & [=])|[(out' & e & [=])|[(out' & [= <-] & Hk')|(out' & e & [= <-] & Hd')]]].
  - done.
  - congruence.
Qed.

End RelayProofs.

Section RelayExamples.

Import Relay.
#[local] Existing Instances Sample.in_order Sample.framing.

(** The handshake with [peer_B] registers it with the addresses of B. *)
Example serve_peer_B :
  serve Sample.peer_B 0 NewWalletServer
  = ((None,
      [EvBlock (NetWrite 7 {| Command := CommandListWalletRequest; Data := [] |});
       EvBlock (NetRead 7); EvLock; EvUnlock]),
     {| clients := {[ 0 := {| addresses := ["addr1"; "addr2"];
                              conn := Sample.peer_B; close := 0 |} ]};
        allocated := 1 |}).
Proof. vm_compute. reflexivity. Qed.

(** A signature asked of the server comes back from the far end. *)
Example WalletSign_via_peer_B :
  (WalletSign "addr2" Sample.payload Sample.chain_msg Sample.server_with_B).1.1
  = (Some {| SigType := x01; SigData := list_byte_of_string "addr2" ++ Sample.payload |},
     None).
Proof. vm_compute. reflexivity. Qed.

Lemma WalletSign_relay_round_trip_witness :
  ∃ p c r bs,
    clients Sample.server_with_B !! p = Some c ∧ "addr2" ∈ addresses c
    ∧ WalletSign "addr2" Sample.payload Sample.chain_msg Sample.server_with_B
      = ((r, EvLock :: (EvBlock <$> bs) ++ [EvUnlock]), Sample.server_with_B)
    ∧ head bs
      = Some (NetWrite (conn_id (conn c))
                {| Command := CommandSignRequest;
                   Data := (Marshal_SignRequest
                              {| Signer := "addr2"; ToSign := Sample.payload;
                                 Meta := Sample.chain_msg |}).1 |}).
Proof.
  destruct (WalletSign_relay_round_trip Sample.server_with_B "addr2" Sample.payload
              Sample.chain_msg
              (Marshal_SignRequest
                 {| Signer := "addr2"; ToSign := Sample.payload;
                    Meta := Sample.chain_msg |}).1)
    as (p & c & r & bs & Hp & Hadv & Heq & Hhd & _).
  - exists 0, {| addresses := ["addr1"; "addr2"]; conn := Sample.peer_B; close := 0 |}.
    split; [reflexivity|]. right. left.
  - reflexivity.
  - reflexivity.
  - exists p, c, r, bs. auto.
Defined.

Lemma serve_rejects_bad_handshake_witness :
  ∃ e t o',
    serve Sample.garbled 1 Sample.server_with_B = ((Some e, t), o')
    ∧ clients o' = clients Sample.server_with_B
    ∧ ∀ signer toSign meta,
        (∀ p c', clients Sample.server_with_B !! p = Some c' → signer ∉ addresses c') →
        WalletSign signer toSign meta o'
        = ((None, Some "wallet not exist"), [EvLock; EvUnlock], o').
Proof.
  apply (serve_rejects_bad_handshake Sample.server_with_B Sample.garbled 1).
  right. right. right.
  exists {| Command := CommandListWalletResponse; Data := [xff] |}, "invalid character".
  split; reflexivity.
Defined.

(** After the garbled handshake, a signature for an address of its own
    is refused and nothing is written. *)
Example WalletSign_after_garbled :
  WalletSign "addr9" Sample.payload Sample.chain_msg
    (serve Sample.garbled 1 Sample.server_with_B).2
  = ((None, Some "wallet not exist"), [EvLock; EvUnlock],
     (serve Sample.garbled 1 Sample.server_with_B).2).
Proof. vm_compute. reflexivity. Qed.

End RelayExamples.

(** ** Which calls hold the mutex while they block *)

Section LockScope.

Context `{MapOrder} `{Offline.CidLib} `{Offline.Sigs} `{Relay.Json}.

(** C3, as the code has it.  The offline queue's [WalletSign] never
    blocks with the mutex held: it takes it to file the request, gives it
    back, waits in [select], and takes it again to remove the entry.  The
    relay server's [WalletSign] takes the registry mutex first and gives it
    back last, so everything it blocks on, the writing of the request and
    the reading of the reply, happens with the mutex held. *)
Theorem Sign_lock_scope :
  (∀ signer toSign meta w (o : Offline.OfflineWallet),
     blocks_under_lock false (Offline.WalletSign signer toSign meta w o).1.2 = false)
  ∧ (∀ signer toSign meta (o : Relay.WalletServer),
       ∃ r bs,
         Relay.WalletSign signer toSign meta o
         = ((r, EvLock :: (EvBlock <$> bs) ++ [EvUnlock]), o)
         ∧ ((∃ p c, Relay.clients o !! p = Some c ∧ signer ∈ Relay.addresses c) →
            (∃ data, Relay.Marshal_SignRequest
                       {| Relay.Signer := signer; Relay.ToSign := toSign;
                          Relay.Meta := meta |} = (data, None)) →
            blocks_under_lock false (EvLock :: (EvBlock <$> bs) ++ [EvUnlock]) = true)).
Proof.
  split.
  - intros signer toSign meta w o.
    destruct (Offline.CidFromBytes toSign) as [[n c] [e|]] eqn:Hc.
    { unfold Offline.WalletSign. by rewrite Hc. }
    destruct (decide (Type_ meta = MTChainMsg)) as [Hm|Hm].
    + by rewrite (Offline_WalletSign_run _ _ _ _ _ n c Hc Hm).
    + unfold Offline.WalletSign. rewrite Hc. by rewrite decide_True.
  - intros signer toSign meta o. rewrite Relay_WalletSign_run.
    destruct (decide (Exists (λ pc, signer ∈ Relay.addresses pc.2)
                        (range (Relay.clients o)))) as [Hex|Hno].
    2: rewrite Exists_exists in Hno.
    + apply Exists_exists in Hex as ([p0 c0] & Hin0 & Hadv0).
      destruct (WalletSign_clients_some (range (Relay.clients o)) signer toSign meta o)
        as (p & c & Hin & Hadv & ->); [by eauto|].
      destruct (Relay.Marshal_SignRequest
                  {| Relay.Signer := signer; Relay.ToSign := toSign; Relay.Meta := meta |})
        as [data [e|]] eqn:Hm.
      * unfold Relay.WalletSign_roundtrip. rewrite Hm.
        eexists _, []. split; [reflexivity|]. intros _ (data' & [=]).
      * rewrite (WalletSign_roundtrip_run _ _ _ _ _ data Hm).
        destruct (Relay.WriteJSON _ _) as [e|].
        { eexists _, [_; _]. split; [reflexivity|done]. }
        destruct (Relay.ReadJSON _ _) as [out [e|]].
        { eexists _, [_; _; _]. split; [reflexivity|done]. }
        eexists _, [_; _]. split; [reflexivity|done].
    + rewrite WalletSign_clients_none.
      * eexists _, []. split; [reflexivity|].
        intros (p & c & Hl%elem_of_range & Hadv) _. destruct Hno. by exists (p, c).
      * intros p c Hin Hadv. destruct Hno. by exists (p, c).
Qed.

End LockScope.

Section LockScopeExamples.

#[local] Existing Instances Sample.in_order Sample.cid_v1 Sample.sig_by_name Sample.framing.

(** The claim that no call blocks with its mutex held fails twice: the
    relay server's [WalletSign] writes to and reads from the connection
    between [Lock] and [Unlock], and the offline queue's [SubmitSignature]
    sends on the unbuffered channel between [Lock] and [Unlock]. *)
Lemma lock_held_while_blocking :
  (Relay.WalletSign "addr2" Sample.payload Sample.chain_msg Sample.server_with_B).1.2
  = [EvLock;
     EvBlock (Relay.NetWrite 7
                {| Relay.Command := Relay.CommandSignRequest;
                   Relay.Data := (Relay.Marshal_SignRequest
                                    {| Relay.Signer := "addr2";
                                       Relay.ToSign := Sample.payload;
                                       Relay.Meta := Sample.chain_msg |}).1 |});
     EvBlock (Relay.NetRead 7);
     EvUnlock]
  ∧ blocks_under_lock false
      (Relay.WalletSign "addr2" Sample.payload Sample.chain_msg Sample.server_with_B).1.2
    = true
  ∧ (Offline.SubmitSignature Sample.alice_submission Sample.alice_waiting).1.2
    = [EvLock;
       EvBlock (Offline.ChanSend 0 (Offline.SM_Signature Sample.alice_submission));
       EvUnlock]
  ∧ blocks_under_lock false
      (Offline.SubmitSignature Sample.alice_submission Sample.alice_waiting).1.2
    = true.
Proof. split_and!; vm_compute; reflexivity. Qed.

Lemma Sign_lock_scope_witness :
  ∃ r bs,
    Relay.WalletSign "addr2" Sample.payload Sample.chain_msg Sample.server_with_B
    = ((r, EvLock :: (EvBlock <$> bs) ++ [EvUnlock]), Sample.server_with_B)
    ∧ blocks_under_lock false (EvLock :: (EvBlock <$> bs) ++ [EvUnlock]) = true.
Proof.
  destruct (proj2 Sign_lock_scope "addr2" Sample.payload Sample.chain_msg
              Sample.server_with_B) as (r & bs & Heq & Hheld).
  exists r, bs. split; [exact Heq|]. apply Hheld.
  - exists 0, {| Relay.addresses := ["addr1"; "addr2"]; Relay.conn := Sample.peer_B;
                 Relay.close := 0 |}.
    split; [reflexivity|]. right. left.
  - eexists. reflexivity.
Defined.

End LockScopeExamples.

(** ** The router: the operations resolved by ownership *)

Section MultiWalletDispatch.

Context {W : Type}.
Implicit Types (w s : WalletAPI W) (ws pre post : list (WalletAPI W)) (st : W).

Lemma WalletHas_loop_app_false address pre ws st st1 :
  has_false address pre st st1 →
  WalletHas_loop (pre ++ ws) address st = WalletHas_loop ws address st1.
Proof.
  induction 1 as [|w pre st st1 st2 Hw _ IH]; [reflexivity|].
  simpl. rewrite Hw. exact IH.
Qed.

Lemma WalletHas_loop_no_error ws address st b e st' :
  WalletHas_loop ws address st ≠ (Returns (b, Some e), st').
Proof.
  revert st. induction ws as [|w ws IH]; intros st; simpl; [done|].
  destruct (WalletHas w address st) as [[a [e'|]] st1]; [done|].
  destruct a; [done|apply IH].
Qed.

(** X1. [MultiWallet.WalletHas] is the disjunction of the backends' answers,
    taken in order: the first backend that answers true decides, the later
    ones are not asked; when all answer false so does the router; an error
    of the backend being asked ends the process, and no error is ever
    returned to the caller. *)
Theorem MultiWallet_WalletHas_first_owner address :
  (∀ pre w post st st1 st2,
     has_false address pre st st1 →
     WalletHas w address st1 = ((true, None), st2) →
     MultiWallet_WalletHas {| wallets := pre ++ w :: post |} address st
     = (Returns (true, None), st2))
  ∧ (∀ ws st st',
       has_false address ws st st' →
       MultiWallet_WalletHas {| wallets := ws |} address st = (Returns (false, None), st'))
  ∧ (∀ pre w post st st1 b e st2,
       has_false address pre st st1 →
       WalletHas w address st1 = ((b, Some e), st2) →
       MultiWallet_WalletHas {| wallets := pre ++ w :: post |} address st
       = (Fatal ("wallet has: " +:+ e), st2))
  ∧ (∀ m st b e st',
       MultiWallet_WalletHas m address st ≠ (Returns (b, Some e), st')).
Proof.
  unfold MultiWallet_WalletHas; simpl. split_and!.
  - intros pre w post st st1 st2 Hpre Hw.
    rewrite (WalletHas_loop_app_false _ _ _ _ _ Hpre). simpl. by rewrite Hw.
  - intros ws st st' Hall.
    rewrite <- (app_nil_r ws), (WalletHas_loop_app_false _ _ _ _ _ Hall). reflexivity.
  - intros pre w post st st1 b e st2 Hpre Hw.
    rewrite (WalletHas_loop_app_false _ _ _ _ _ Hpre). simpl. by rewrite Hw.
  - intros m st b e st'. apply WalletHas_loop_no_error.
Qed.

Lemma WalletSign_loop_app_false signer toSign meta pre ws st st1 :
  has_false signer pre st st1 →
  WalletSign_loop (pre ++ ws) signer toSign meta st
  = WalletSign_loop ws signer toSign meta st1.
Proof.
  induction 1 as [|w pre st st1 st2 Hw _ IH]; [reflexivity|].
  simpl. rewrite Hw. exact IH.
Qed.

(** X2. [MultiWallet.WalletSign] hands the request to the first backend whose
    [WalletHas] answers true and returns what that backend's [WalletSign]
    returns; the backends after it are asked nothing.  When every backend
    answers false no [WalletSign] is called and the error is
    "key not found". *)
Theorem MultiWallet_WalletSign_by_owner signer toSign meta :
  (∀ pre w post st st1 st2 r st3,
     has_false signer pre st st1 →
     WalletHas w signer st1 = ((true, None), st2) →
     WalletSign w signer toSign meta st2 = (r, st3) →
     MultiWallet_WalletSign {| wallets := pre ++ w :: post |} signer toSign meta st
     = (Returns r, st3))
  ∧ (∀ ws st st',
       has_false signer ws st st' →
       MultiWallet_WalletSign {| wallets := ws |} signer toSign meta st
       = (Returns (None, Some "key not found"), st')).
Proof.
  unfold MultiWallet_WalletSign; simpl. split.
  - intros pre w post st st1 st2 r st3 Hpre Hw Hs.
    rewrite (WalletSign_loop_app_false _ _ _ _ _ _ _ Hpre). simpl. by rewrite Hw, Hs.
  - intros ws st st' Hall.
    rewrite <- (app_nil_r ws), (WalletSign_loop_app_false _ _ _ _ _ _ _ Hall). reflexivity.
Qed.

Lemma WalletExport_loop_app_false address pre ws st st1 :
  has_false address pre st st1 →
  WalletExport_loop (pre ++ ws) address st = WalletExport_loop ws address st1.
Proof.
  induction 1 as [|w pre st st1 st2 Hw _ IH]; [reflexivity|].
  simpl. rewrite Hw. exact IH.
Qed.

Lemma WalletDelete_loop_app_false address pre ws st st1 :
  has_false address pre st st1 →
  WalletDelete_loop (pre ++ ws) address st = WalletDelete_loop ws address st1.
Proof.
  induction 1 as [|w pre st st1 st2 Hw _ IH]; [reflexivity|].
  simpl. rewrite Hw. exact IH.
Qed.

(** X3. [MultiWallet.WalletExport] and [MultiWallet.WalletDelete] go to the
    first backend that owns the address and return its result; when no
    backend owns it they return "key not found" and call no backend's
    [WalletExport] or [WalletDelete]. *)
Theorem MultiWallet_WalletExport_WalletDelete_by_owner address :
  (∀ pre w post st st1 st2 r st3,
     has_false address pre st st1 →
     WalletHas w address st1 = ((true, None), st2) →
     WalletExport w address st2 = (r, st3) →
     MultiWallet_WalletExport {| wallets := pre ++ w :: post |} address st
     = (Returns r, st3))
  ∧ (∀ pre w post st st1 st2 r st3,
       has_false address pre st st1 →
       WalletHas w address st1 = ((true, None), st2) →
       WalletDelete w address st2 = (r, st3) →
       MultiWallet_WalletDelete {| wallets := pre ++ w :: post |} address st
       = (Returns r, st3))
  ∧ (∀ ws st st',
       has_false address ws st st' →
       MultiWallet_WalletExport {| wallets := ws |} address st
       = (Returns (None, Some "key not found"), st')
       ∧ MultiWallet_WalletDelete {| wallets := ws |} address st
         = (Returns (Some "key not found"), st')).
Proof.
  unfold MultiWallet_WalletExport, MultiWallet_WalletDelete; simpl. split_and!.
  - intros pre w post st st1 st2 r st3 Hpre Hw He.
    rewrite (WalletExport_loop_app_false _ _ _ _ _ Hpre). simpl. by rewrite Hw, He.
  - intros pre w post st st1 st2 r st3 Hpre Hw Hd.
    rewrite (WalletDelete_loop_app_false _ _ _ _ _ Hpre). simpl. by rewrite Hw, Hd.
  - intros ws st st' Hall. split.
    + rewrite <- (app_nil_r ws), (WalletExport_loop_app_false _ _ _ _ _ Hall). reflexivity.
    + rewrite <- (app_nil_r ws), (WalletDelete_loop_app_false _ _ _ _ _ Hall). reflexivity.
Qed.

Lemma WalletImport_loop_app_fails info pre ws st st1 :
  import_fails info pre st st1 →
  WalletImport_loop (pre ++ ws) info st = WalletImport_loop ws info st1.
Proof.
  induction 1 as [|w pre st a e st1 st2 Hw _ IH]; [reflexivity|].
  simpl. rewrite Hw. exact IH.
Qed.

(** X4. [MultiWallet.WalletImport] returns the result of the first backend
    that imports the key without error.  When every backend refuses, the
    error names the key type of [info]; with a nil [info] building that
    error panics. *)
Theorem MultiWallet_WalletImport_first_success info :
  (∀ pre w post st st1 a st2,
     import_fails info pre st st1 →
     WalletImport w info st1 = ((a, None), st2) →
     MultiWallet_WalletImport {| wallets := pre ++ w :: post |} info st
     = (Returns (a, None), st2))
  ∧ (∀ ws st st' ki,
       import_fails info ws st st' →
       info = Some ki →
       MultiWallet_WalletImport {| wallets := ws |} info st
       = (Returns (Undef, Some ("no wallet backends supporting key type: "
                                  +:+ KeyInfo_Type ki)), st'))
  ∧ (∀ ws st st',
       import_fails info ws st st' →
       info = None →
       MultiWallet_WalletImport {| wallets := ws |} info st
       = (Panics "invalid memory address or nil pointer dereference", st')).
Proof.
  unfold MultiWallet_WalletImport; simpl. split_and!.
  - intros pre w post st st1 a st2 Hpre Hw.
    rewrite (WalletImport_loop_app_fails _ _ _ _ _ Hpre). simpl. by rewrite Hw.
  - intros ws st st' ki Hall ->.
    rewrite <- (app_nil_r ws), (WalletImport_loop_app_fails _ _ _ _ _ Hall). reflexivity.
  - intros ws st st' Hall ->.
    rewrite <- (app_nil_r ws), (WalletImport_loop_app_fails _ _ _ _ _ Hall). reflexivity.
Qed.

End MultiWalletDispatch.

(** ** The router: listing, and the router [run] builds *)

Section MultiWalletListing.

Context {W : Type}.
Implicit Types (w s : WalletAPI W) (ws pre post : list (WalletAPI W)) (st : W).

Lemma WalletList_loop_error pre w post st ls st1 l e st2 seen out :
  lists_ok pre st ls st1 →
  WalletList w st1 = ((l, Some e), st2) →
  WalletList_loop (pre ++ w :: post) seen out st = (([], Some e), st2).
Proof.
  intros Hok Hw. revert seen out.
  induction Hok as [st|w' pre st l' ls st1 st1' Hw' _ IH]; intros seen out; simpl.
  - by rewrite Hw.
  - rewrite Hw'. destruct (WalletList_addrs l' seen out) as [seen' out']. by apply IH.
Qed.

(** X5. When a backend's [WalletList] fails, [MultiWallet.WalletList] returns
    that error with an empty list, whatever the backends before it listed,
    and the backends after it are not asked. *)
Theorem MultiWallet_WalletList_first_error pre w post st ls st1 l e st2 :
  lists_ok pre st ls st1 →
  WalletList w st1 = ((l, Some e), st2) →
  MultiWallet_WalletList {| wallets := pre ++ w :: post |} st = (([], Some e), st2).
Proof. intros Hok Hw. by eapply WalletList_loop_error. Qed.

Lemma first_occurrences_ext (s1 s2 l : list Address) :
  (∀ x, x ∈ s1 ↔ x ∈ s2) → first_occurrences s1 l = first_occurrences s2 l.
Proof.
  revert s1 s2. induction l as [|a l IH]; intros s1 s2 Hext; simpl; [done|].
  destruct (decide (a ∈ s1)) as [H1|H1], (decide (a ∈ s2)) as [H2|H2].
  - by apply IH.
  - by apply Hext in H1.
  - by apply Hext in H2.
  - f_equal. apply IH. intros x. rewrite !elem_of_cons. by rewrite Hext.
Qed.

Lemma first_occurrences_app (seen l1 l2 : list Address) :
  first_occurrences seen (l1 ++ l2)
  = first_occurrences seen l1
    ++ first_occurrences (first_occurrences seen l1 ++ seen) l2.
Proof.
  revert seen. induction l1 as [|a l1 IH]; intros seen; simpl; [done|].
  destruct (decide (a ∈ seen)) as [Hin|Hnin]; [apply IH|].
  simpl. f_equal. rewrite IH. f_equal. apply first_occurrences_ext.
  intros x. rewrite !elem_of_app, !elem_of_cons, !elem_of_app. tauto.
Qed.

Lemma first_occurrences_NoDup (seen l : list Address) :
  NoDup l → (∀ x, x ∈ l → x ∉ seen) → first_occurrences seen l = l.
Proof.
  revert seen. induction l as [|a l IH]; intros seen Hnd Hdisj; simpl; [done|].
  apply NoDup_cons in Hnd as [Ha Hnd].
  rewrite decide_False by (apply Hdisj; left).
  f_equal. apply IH; [done|].
  intros x Hx [->|Hs]%elem_of_cons; [done|].
  by apply (Hdisj x); [right|].
Qed.

Lemma WalletList_addrs_first (l seenl out : list Address) :
  WalletList_addrs l (list_to_set seenl) out
  = (list_to_set (first_occurrences seenl l ++ seenl), out ++ first_occurrences seenl l).
Proof.
  revert seenl out. induction l as [|a l IH]; intros seenl out; simpl.
  - by rewrite app_nil_r.
  - destruct (decide (a ∈ (list_to_set seenl : gset Address))) as [Hin|Hnin].
    + rewrite decide_True by (by apply elem_of_list_to_set in Hin). apply IH.
    + rewrite decide_False by (by rewrite elem_of_list_to_set in Hnin).
      change ({[a]} ∪ list_to_set seenl : gset Address) with
        (list_to_set (a :: seenl) : gset Address).
      rewrite IH. f_equal.
      * rewrite !list_to_set_app_L. simpl. set_solver.
      * by rewrite <- app_assoc.
Qed.

Lemma WalletList_loop_first ws st ls st' (seenl out : list Address) :
  lists_ok ws st ls st' →
  WalletList_loop ws (list_to_set seenl) out st
  = ((out ++ first_occurrences seenl (concat ls), None), st').
Proof.
  intros Hok. revert seenl out.
  induction Hok as [st|w ws st l ls st1 st2 Hw _ IH]; intros seenl out; simpl.
  - by rewrite app_nil_r.
  - rewrite Hw, WalletList_addrs_first, IH.
    by rewrite first_occurrences_app, app_assoc.
Qed.

(** X6. [MultiWallet.WalletList] keeps the order in which the addresses are
    first met: it returns the concatenation of the backends' lists, in
    backend order, with every repeated occurrence after the first removed.
    Lists that share no address and repeat none are returned
    concatenated, unchanged. *)
Theorem MultiWallet_WalletList_first_occurrences (m : MultiWallet W) st ls st' :
  lists_ok (wallets m) st ls st' →
  MultiWallet_WalletList m st = ((first_occurrences [] (concat ls), None), st')
  ∧ (NoDup (concat ls) → MultiWallet_WalletList m st = ((concat ls, None), st')).
Proof.
  intros Hok. unfold MultiWallet_WalletList.
  change (∅ : gset Address) with (list_to_set [] : gset Address).
  rewrite (WalletList_loop_first _ _ _ _ [] [] Hok). simpl. split; [done|].
  intros Hnd. rewrite first_occurrences_NoDup; [done..|].
  intros x _. apply not_elem_of_nil.
Qed.

(** X7. With [--safe], the router [run] builds has the safe wallet over the
    local key store first, then the ledger, the relay server and the remote
    wallet as their flags ask.  Its [WalletNew] never reaches the local key
    store: it is the [WalletNew] of the router of the other backends.  A
    key the local store owns cannot be exported through it, and can still
    be imported into the local store. *)
Theorem run_safe_router (f : run_flags) (lw ledgerw serverw rw : WalletAPI W) :
  safe_set f = true →
  let rest := (if ledger f then [ledgerw] else [])
              ++ (if server f then [serverw] else [])
              ++ (if remote_set f then [rw] else []) in
  let multi := run_wallets f lw ledgerw serverw rw in
  wallets multi = SafeWallet lw :: rest
  ∧ (∀ keyType st,
       MultiWallet_WalletNew multi keyType st
       = MultiWallet_WalletNew {| wallets := rest |} keyType st)
  ∧ (∀ address st st1,
       WalletHas lw address st = ((true, None), st1) →
       MultiWallet_WalletExport multi address st
       = (Returns (None, Some "DO NOT EXPORT THIS WALLET"), st1))
  ∧ (∀ info st a st1,
       WalletImport lw info st = ((a, None), st1) →
       MultiWallet_WalletImport multi info st = (Returns (a, None), st1)).
Proof.
  intros Hsafe rest multi.
  assert (Hw : wallets multi = SafeWallet lw :: rest).
  { subst multi rest. unfold run_wallets. rewrite Hsafe.
    by destruct (ledger f), (server f), (remote_set f). }
  split; [done|]. split_and!.
  - intros keyType st. unfold MultiWallet_WalletNew. by rewrite Hw.
  - intros address st st1 Hhas. unfold MultiWallet_WalletExport. rewrite Hw. simpl.
    unfold SafeWallet_WalletHas. by rewrite Hhas.
  - intros info st a st1 Himp. unfold MultiWallet_WalletImport. rewrite Hw. simpl.
    unfold SafeWallet_WalletImport. by rewrite Himp.
Qed.

End MultiWalletListing.

Section MultiWalletExamples.

Lemma MultiWallet_WalletHas_first_owner_witness :
  MultiWallet_WalletHas Sample.router_AB "addr2" Sample.two_stores
  = (Returns (true, None), Sample.two_stores).
Proof.
  apply (proj1 (MultiWallet_WalletHas_first_owner "addr2")
           [Sample.keystore "A"] (Sample.keystore "B") []
           Sample.two_stores Sample.two_stores).
  - eapply has_false_cons; [reflexivity|apply has_false_nil].
  - reflexivity.
Defined.

Lemma MultiWallet_WalletSign_by_owner_witness :
  MultiWallet_WalletSign Sample.router_AB "addr2" Sample.payload Sample.chain_msg
    Sample.two_stores
  = (Returns (Some {| SigType := x01;
                      SigData := list_byte_of_string "addr2" ++ Sample.payload |}, None),
     Sample.two_stores).
Proof.
  apply (proj1 (MultiWallet_WalletSign_by_owner "addr2" Sample.payload Sample.chain_msg)
           [Sample.keystore "A"] (Sample.keystore "B") []
           Sample.two_stores Sample.two_stores Sample.two_stores).
  - eapply has_false_cons; [reflexivity|apply has_false_nil].
  - reflexivity.
  - reflexivity.
Defined.

Lemma MultiWallet_WalletExport_WalletDelete_by_owner_witness :
  MultiWallet_WalletExport {| wallets := [Sample.keystore "A"; Sample.vault "B"] |}
    "addr2" Sample.two_stores
  = (Returns (Some {| KeyInfo_Type := "secp256k1";
                      PrivateKey := list_byte_of_string "addr2" |}, None),
     Sample.two_stores).
Proof.
  apply (proj1 (MultiWallet_WalletExport_WalletDelete_by_owner "addr2")
           [Sample.keystore "A"] (Sample.vault "B") []
           Sample.two_stores Sample.two_stores Sample.two_stores).
  - eapply has_false_cons; [reflexivity|apply has_false_nil].
  - reflexivity.
  - reflexivity.
Defined.

Lemma MultiWallet_WalletImport_first_success_witness :
  MultiWallet_WalletImport {| wallets := [Sample.keystore "A"; Sample.vault "B"] |}
    (Some Sample.key_addr3) Sample.two_stores
  = (Returns ("addr3", None), <["B" := ["addr1"; "addr2"; "addr3"]]> Sample.two_stores).
Proof.
  apply (proj1 (MultiWallet_WalletImport_first_success (Some Sample.key_addr3))
           [Sample.keystore "A"] (Sample.vault "B") []
           Sample.two_stores Sample.two_stores).
  - eapply import_fails_cons; [reflexivity|apply import_fails_nil].
  - reflexivity.
Defined.

Lemma MultiWallet_WalletList_first_error_witness :
  MultiWallet_WalletList
    {| wallets := [Sample.keystore "A"; Sample.unplugged; Sample.keystore "B"] |}
    Sample.two_stores
  = (([], Some "device not found"), Sample.two_stores).
Proof.
  apply (MultiWallet_WalletList_first_error [Sample.keystore "A"] Sample.unplugged
           [Sample.keystore "B"] Sample.two_stores [["addr1"]] Sample.two_stores []).
  - eapply lists_ok_cons; [reflexivity|apply lists_ok_nil].
  - reflexivity.
Defined.

Lemma MultiWallet_WalletList_first_occurrences_witness :
  MultiWallet_WalletList Sample.router_AB Sample.two_stores
  = ((first_occurrences [] (concat [["addr1"]; ["addr1"; "addr2"]]), None),
     Sample.two_stores).
Proof.
  apply (MultiWallet_WalletList_first_occurrences Sample.router_AB Sample.two_stores
           [["addr1"]; ["addr1"; "addr2"]] Sample.two_stores).
  apply (lists_ok_cons _ _ _ _ _ Sample.two_stores); [reflexivity|].
  apply (lists_ok_cons _ _ _ _ _ Sample.two_stores); [reflexivity|].
  apply lists_ok_nil.
Defined.

(** [run --safe --ledger] over the stores A and B: store A's key is not
    exported. *)
Lemma run_safe_router_witness :
  MultiWallet_WalletExport
    (run_wallets {| safe_set := true; ledger := true; server := false; remote_set := false |}
       (Sample.vault "A") (Sample.vault "B") Sample.unplugged Sample.unplugged)
    "addr1" Sample.two_stores
  = (Returns (None, Some "DO NOT EXPORT THIS WALLET"), Sample.two_stores).
Proof.
  apply (proj1 (proj2 (proj2
           (run_safe_router
              {| safe_set := true; ledger := true; server := false; remote_set := false |}
              (Sample.vault "A") (Sample.vault "B") Sample.unplugged Sample.unplugged
              eq_refl)))).
  reflexivity.
Defined.

End MultiWalletExamples.

(** ** The relay server: discovery, registration and closing *)

Section RelayRegistry.

Import Relay.
Context `{MapOrder} `{Json}.
Implicit Types (o : WalletServer) (c : clientWallet) (addr signer : Address).

Lemma WalletHas_addrs_true (addrs : list Address) addr :
  WalletHas_addrs addrs addr = true ↔ addr ∈ addrs.
Proof.
  induction addrs as [|a addrs IH]; simpl.
  - split; [done|]. by intros ?%elem_of_nil.
  - destruct (decide (a = addr)) as [->|Hne].
    + split; [intros _; left|done].
    + rewrite IH, elem_of_cons. naive_solver.
Qed.

Lemma WalletHas_clients_true (cs : list (nat * clientWallet)) addr :
  WalletHas_clients cs addr = true ↔ ∃ p c, (p, c) ∈ cs ∧ addr ∈ addresses c.
Proof.
  induction cs as [|[p c] cs IH]; simpl.
  - split; [done|]. by intros (? & ? & ?%elem_of_nil & _).
  - destruct (WalletHas_addrs (addresses c) addr) eqn:Hc.
    + split; [|done]. intros _. exists p, c. split; [left|].
      by apply WalletHas_addrs_true.
    + rewrite IH. split.
      * intros (p' & c' & Hin & Ha). exists p', c'. split; [by right|done].
      * intros (p' & c' & Hin & Ha).
        apply elem_of_cons in Hin as [ [= -> ->] | Hin]; [|by eauto].
        apply WalletHas_addrs_true in Ha. congruence.
Qed.

Lemma WalletList_clients_concat (cs : list (nat * clientWallet)) (acc : list Address) :
  WalletList_clients cs acc = acc ++ mjoin ((λ pc, addresses pc.2) <$> cs).
Proof.
  revert acc. induction cs as [|[p c] cs IH]; intros acc; simpl.
  - by rewrite app_nil_r.
  - by rewrite IH, app_assoc.
Qed.

Lemma WalletHas_clients_advertised o addr :
  WalletHas_clients (range (clients o)) addr = true ↔ advertised o addr.
Proof.
  rewrite WalletHas_clients_true. unfold advertised. by setoid_rewrite elem_of_range.
Qed.

Lemma WalletHas_run addr o :
  WalletHas addr o
  = ((WalletHas_clients (range (clients o)) addr, None), [EvLock; EvUnlock], o).
Proof. reflexivity. Qed.

(** X8. [WalletServer.WalletHas] answers true exactly when some registered
    connection advertises the address, in whatever order the registry is
    visited; it never fails, never writes to a connection and leaves the
    registry as it was. *)
Theorem WalletServer_WalletHas_advertised o addr :
  ∃ b, WalletHas addr o = ((b, None), [EvLock; EvUnlock], o)
       ∧ (b = true ↔ advertised o addr).
Proof.
  eexists. split; [apply WalletHas_run|]. apply WalletHas_clients_advertised.
Qed.

(** X9. [WalletServer.WalletList] returns the advertised lists of all
    registered connections one after the other, nothing removed: an address
    two connections advertise is listed twice.  The addresses listed are
    those for which [WalletHas] answers true. *)
Theorem WalletServer_WalletList_all o :
  ∃ l, WalletList o = ((l, None), [EvLock; EvUnlock], o)
       ∧ l ≡ₚ mjoin ((λ pc, addresses pc.2) <$> map_to_list (clients o))
       ∧ ∀ addr, addr ∈ l ↔ (WalletHas addr o).1.1 = (true, None).
Proof.
  eexists. split; [reflexivity|].
  rewrite WalletList_clients_concat. simpl. split.
  - unfold range. by rewrite range_order_perm.
  - intros addr. unfold WalletHas. run.
    rewrite list_elem_of_join. split.
    + intros (l & Ha & (pc & -> & Hin)%list_elem_of_fmap).
      f_equal. apply WalletHas_clients_true. exists pc.1, pc.2.
      split; [by destruct pc|done].
    + intros [= Hb]. apply WalletHas_clients_true in Hb as (p & c & Hin & Ha).
      exists (addresses c). split; [done|].
      apply list_elem_of_fmap. by exists (p, c).
Qed.

Lemma allocated_bound_new : allocated_bound NewWalletServer.
Proof. intros p [c Hc]. cbn in Hc. by rewrite lookup_empty in Hc. Qed.

(** X10. A handshake whose reply arrives, is a list-wallets response and
    decodes registers the connection with the addresses of the reply, and
    does so whatever the [Err] field of the reply says.  From then on
    [WalletHas] answers true for each of those addresses, the addresses
    advertised before are still advertised, and every registered
    connection is still one allocated before. *)
Theorem serve_then_WalletHas o (c : Conn) close out resp :
  let cmd := {| Command := CommandListWalletRequest; Data := [] |} in
  WriteJSON c cmd = None →
  ReadJSON c cmd = (out, None) →
  Command out = CommandListWalletResponse →
  Unmarshal_ListWalletResponse (Data out) = inl resp →
  allocated_bound o →
  let o' := (serve c close o).2 in
  (serve c close o).1.1 = None
  ∧ clients o' !! allocated o
    = Some {| addresses := Addresses resp; conn := c; close := close |}
  ∧ (∀ addr, addr ∈ Addresses resp → (WalletHas addr o').1.1 = (true, None))
  ∧ (∀ addr, advertised o addr → advertised o' addr)
  ∧ allocated_bound o'.
Proof.
  intros cmd Hw Hr Hk Hd Hb o'. subst o'.
  rewrite (serve_registers o c close out resp Hw Hr Hk Hd). cbn [fst snd clients allocated].
  split; [done|]. split; [by rewrite lookup_insert_eq|]. split_and!.
  - intros addr Ha. rewrite WalletHas_run. cbn [fst snd]. f_equal.
    apply WalletHas_clients_advertised.
    eexists _, _. cbn. split; [apply lookup_insert_eq|done].
  - intros addr (p & c' & Hp & Ha). exists p, c'. split; [|done]. cbn.
    rewrite lookup_insert_ne; [done|].
    intros <-. specialize (Hb (allocated o) (ex_intro _ c' Hp)). lia.
  - intros p. cbn. destruct (decide (p = allocated o)) as [->|Hne]; [lia|].
    rewrite lookup_insert_ne by done. intros Hp. specialize (Hb p Hp). lia.
Qed.

Lemma closeHandler_run client close code text o :
  closeHandler client close code text o
  = ((None, [EvLock; EvBlock (CloseSend close); EvUnlock]),
     {| clients := delete client (clients o); allocated := allocated o |}).
Proof. reflexivity. Qed.

(** X11. The close handler of a connection takes it out of the registry: after
    a successful handshake and the close of that connection the registry
    holds the connections it held before, so an address only that
    connection advertised is no longer found.  The handler sends on the
    [close] channel before it gives the mutex back. *)
Theorem closeHandler_undoes_serve o (c : Conn) close out resp code text :
  let cmd := {| Command := CommandListWalletRequest; Data := [] |} in
  WriteJSON c cmd = None →
  ReadJSON c cmd = (out, None) →
  Command out = CommandListWalletResponse →
  Unmarshal_ListWalletResponse (Data out) = inl resp →
  allocated_bound o →
  let o1 := (serve c close o).2 in
  let o2 := (closeHandler (allocated o) close code text o1).2 in
  clients o2 = clients o
  ∧ (∀ addr, (WalletHas addr o2).1.1 = (WalletHas addr o).1.1)
  ∧ allocated_bound o2
  ∧ blocks_under_lock false (closeHandler (allocated o) close code text o1).1.2 = true.
Proof.
  intros cmd Hw Hr Hk Hd Hb o1 o2.
  assert (Hc : clients o2 = clients o).
  { subst o2 o1. rewrite (serve_registers o c close out resp Hw Hr Hk Hd).
    rewrite closeHandler_run. cbn. rewrite delete_insert_eq. apply delete_id.
    destruct (clients o !! allocated o) as [c'|] eqn:Hp; [|done].
    specialize (Hb _ (ex_intro _ c' Hp)). lia. }
  split; [done|]. split_and!.
  - intros addr. unfold WalletHas. run. by rewrite Hc.
  - intros p Hp. rewrite Hc in Hp. specialize (Hb p Hp).
    subst o2 o1. rewrite (serve_registers o c close out resp Hw Hr Hk Hd).
    rewrite closeHandler_run. cbn. lia.
  - by rewrite closeHandler_run.
Qed.

(** X12. The handshake against a far end that runs [connect] over the wallet
    [w]: the connection is registered with the list [w] returned, also when
    [w] returned that list together with an error, which the server does
    not look at. *)
Theorem serve_against_connect {W : Type} (w : WalletAPI W) (st st' : W) (eof : error)
  (id close : nat) o addrs err data :
  let e := match err with Some e => e | None => "" end in
  let resp := {| Addresses := addrs; ListWalletResponse_Err := e |} in
  Wallet.WalletList w st = ((addrs, err), st') →
  Marshal_ListWalletResponse resp = (data, None) →
  Unmarshal_ListWalletResponse data = inl resp →
  serve (peer id w st eof) close o
  = ((None,
      [EvBlock (NetWrite id {| Command := CommandListWalletRequest; Data := [] |});
       EvBlock (NetRead id); EvLock; EvUnlock]),
     {| clients := <[allocated o := {| addresses := addrs; conn := peer id w st eof;
                                       close := close |}]> (clients o);
        allocated := S (allocated o) |}).
Proof.
  intros e resp Hl Hm Hu.
  apply (serve_registers o (peer id w st eof) close
           {| Command := CommandListWalletResponse; Data := data |} resp).
  - reflexivity.
  - cbn. unfold connect_turn. cbn. rewrite Hl. fold e resp. by rewrite Hm.
  - reflexivity.
  - exact Hu.
Qed.

(** X14. The server does not look at the kind of the command that answers a
    sign request: two connections whose replies carry the same data give
    the same result, whatever the [Command] fields of the replies. *)
Theorem WalletSign_ignores_reply_kind c c' signer toSign meta o :
  close c' = close c →
  conn_id (conn c') = conn_id (conn c) →
  (∀ cmd, WriteJSON (conn c') cmd = WriteJSON (conn c) cmd) →
  (∀ cmd, (ReadJSON (conn c') cmd).2 = (ReadJSON (conn c) cmd).2
          ∧ Data (ReadJSON (conn c') cmd).1 = Data (ReadJSON (conn c) cmd).1) →
  WalletSign_roundtrip c' signer toSign meta o = WalletSign_roundtrip c signer toSign meta o.
Proof.
  intros Hcl Hid Hw Hr.
  destruct (Marshal_SignRequest {| Signer := signer; ToSign := toSign; Meta := meta |})
    as [data [e|]] eqn:Hm.
  { unfold WalletSign_roundtrip. by rewrite Hm. }
  rewrite !(WalletSign_roundtrip_run _ _ _ _ _ data Hm).
  rewrite Hw, Hid, Hcl.
  destruct (WriteJSON (conn c) _) as [e|]; [done|].
  destruct (Hr {| Command := CommandSignRequest; Data := data |}) as [He Hd].
  destruct (ReadJSON (conn c') _) as [out' err'], (ReadJSON (conn c) _) as [out err].
  cbn in He, Hd. subst err'.
  destruct err as [e|]; [done|]. by rewrite Hd.
Qed.

(** X15. The relay server as a backend of the router: for an address some
    connection advertises, [WalletExport] and [WalletDelete] through the
    router return the server's refusals, not "key not found"; for any other
    address they return "key not found"; the probe never ends the
    process. *)
Theorem router_over_relay o addr toSign meta :
  let m := {| wallets := [as_backend] |} in
  (advertised o addr →
     MultiWallet_WalletExport m addr o
     = (Returns (None, Some "not support to export a wallet from remote clientWallet"), o)
     ∧ MultiWallet_WalletDelete m addr o
       = (Returns (Some "not support to delete a wallet from remote clientWallet"), o))
  ∧ (¬ advertised o addr →
       MultiWallet_WalletExport m addr o = (Returns (None, Some "key not found"), o)
       ∧ MultiWallet_WalletDelete m addr o = (Returns (Some "key not found"), o)
       ∧ MultiWallet_WalletSign m addr toSign meta o
         = (Returns (None, Some "key not found"), o))
  ∧ (∀ msg o', MultiWallet_WalletHas m addr o ≠ (Fatal msg, o')).
Proof.
  intros m. subst m.
  unfold MultiWallet_WalletExport, MultiWallet_WalletDelete, MultiWallet_WalletSign,
    MultiWallet_WalletHas. simpl.
  pose proof (WalletHas_clients_advertised o addr) as Hb.
  destruct (WalletHas_clients (range (clients o)) addr).
  - split_and!; [done| |done]. intros Hno. destruct Hno. by apply Hb.
  - split_and!; [|done..]. intros Hadv%Hb. done.
Qed.

End RelayRegistry.

Section RelayRegistryExamples.

Import Relay.
#[local] Existing Instances Sample.in_order Sample.framing.

Lemma serve_then_WalletHas_witness :
  (WalletHas "addr2" (serve Sample.peer_B 0 NewWalletServer).2).1.1 = (true, None).
Proof.
  assert (Hd : Unmarshal_ListWalletResponse
                 (Data (ReadJSON Sample.peer_B
                          {| Command := CommandListWalletRequest; Data := [] |}).1)
               = inl {| Addresses := ["addr1"; "addr2"]; ListWalletResponse_Err := "" |}).
  { vm_compute. reflexivity. }
  apply (proj1 (proj2 (proj2
           (serve_then_WalletHas NewWalletServer Sample.peer_B 0
              (ReadJSON Sample.peer_B {| Command := CommandListWalletRequest; Data := [] |}).1
              {| Addresses := ["addr1"; "addr2"]; ListWalletResponse_Err := "" |}
              eq_refl eq_refl eq_refl Hd allocated_bound_new)))).
  right. left.
Defined.

Lemma closeHandler_undoes_serve_witness :
  clients (closeHandler 0 0 1000 "" (serve Sample.peer_B 0 NewWalletServer).2).2 = ∅.
Proof.
  assert (Hd : Unmarshal_ListWalletResponse
                 (Data (ReadJSON Sample.peer_B
                          {| Command := CommandListWalletRequest; Data := [] |}).1)
               = inl {| Addresses := ["addr1"; "addr2"]; ListWalletResponse_Err := "" |}).
  { vm_compute. reflexivity. }
  apply (proj1
           (closeHandler_undoes_serve NewWalletServer Sample.peer_B 0
              (ReadJSON Sample.peer_B {| Command := CommandListWalletRequest; Data := [] |}).1
              {| Addresses := ["addr1"; "addr2"]; ListWalletResponse_Err := "" |}
              1000 "" eq_refl eq_refl eq_refl Hd allocated_bound_new)).
Defined.

Lemma serve_against_connect_witness :
  serve (peer 7 (Sample.keystore "B") Sample.two_stores "unexpected EOF") 0 NewWalletServer
  = ((None,
      [EvBlock (NetWrite 7 {| Command := CommandListWalletRequest; Data := [] |});
       EvBlock (NetRead 7); EvLock; EvUnlock]),
     {| clients :=
          <[0 := {| addresses := ["addr1"; "addr2"];
                    conn := peer 7 (Sample.keystore "B") Sample.two_stores "unexpected EOF";
                    close := 0 |}]> ∅;
        allocated := 1 |}).
Proof.
  apply (serve_against_connect (Sample.keystore "B") Sample.two_stores Sample.two_stores
           "unexpected EOF" 7 0 NewWalletServer ["addr1"; "addr2"] None
           (Marshal_ListWalletResponse
              {| Addresses := ["addr1"; "addr2"]; ListWalletResponse_Err := "" |}).1).
  - reflexivity.
  - reflexivity.
  - reflexivity.
Defined.

Lemma WalletSign_ignores_reply_kind_witness :
  WalletSign_roundtrip
    {| addresses := ["addr1"; "addr2"]; conn := Sample.peer_B_relabelled; close := 0 |}
    "addr2" Sample.payload Sample.chain_msg Sample.server_with_B
  = WalletSign_roundtrip
      {| addresses := ["addr1"; "addr2"]; conn := Sample.peer_B; close := 0 |}
      "addr2" Sample.payload Sample.chain_msg Sample.server_with_B.
Proof.
  apply WalletSign_ignores_reply_kind.
  - reflexivity.
  - reflexivity.
  - intros cmd. reflexivity.
  - intros cmd. split; reflexivity.
Defined.

Lemma router_over_relay_witness :
  MultiWallet_WalletExport {| wallets := [as_backend] |} "addr2" Sample.server_with_B
  = (Returns (None, Some "not support to export a wallet from remote clientWallet"),
     Sample.server_with_B).
Proof.
  apply (proj1 (router_over_relay Sample.server_with_B "addr2" [] Sample.chain_msg)).
  exists 0, {| addresses := ["addr1"; "addr2"]; conn := Sample.peer_B; close := 0 |}.
  split; [reflexivity|]. right. left.
Defined.

End RelayRegistryExamples.

(** ** The offline queue: invariants, listing, late and repeated calls *)

Section OfflineQueue.

Import Offline.
Context `{MapOrder} `{CidLib} `{Sigs}.
Implicit Types (o : OfflineWallet) (signer a : Address) (c : Cid).

Lemma chans_below_register signer toSign meta c o :
  chans_below o → chans_below (WalletSign_register signer toSign meta c o).2.
Proof.
  intros Hb a' c' m. rewrite pending_register.
  assert (Hch : chans (WalletSign_register signer toSign meta c o).2 = S (chans o))
    by by rewrite WalletSign_register_run.
  rewrite Hch. destruct (decide _) as [_|_].
  - intros [= <-]. simpl. lia.
  - intros Hp%Hb. lia.
Qed.

Lemma chans_below_deferred signer c o :
  chans_below o → chans_below (WalletSign_deferred signer c o).2.
Proof.
  intros Hb a' c' m. rewrite pending_deferred.
  assert (Hch : chans (WalletSign_deferred signer c o).2 = chans o)
    by by rewrite WalletSign_deferred_run.
  rewrite Hch. destruct (decide _); [done|apply Hb].
Qed.

Lemma chans_distinct_register signer toSign meta c o :
  chans_below o → chans_distinct o →
  chans_distinct (WalletSign_register signer toSign meta c o).2.
Proof.
  intros Hb Hd a1 c1 m1 a2 c2 m2. rewrite !pending_register.
  destruct (decide (a1 = signer ∧ c1 = c)) as [[-> ->]|_],
           (decide (a2 = signer ∧ c2 = c)) as [[-> ->]|_].
  - done.
  - intros [= <-] Hp%Hb. simpl. lia.
  - intros Hp%Hb [= <-]. simpl. lia.
  - apply Hd.
Qed.

Lemma chans_distinct_deferred signer c o :
  chans_distinct o → chans_distinct (WalletSign_deferred signer c o).2.
Proof.
  intros Hd a1 c1 m1 a2 c2 m2. rewrite !pending_deferred.
  destruct (decide (a1 = signer ∧ c1 = c)), (decide (a2 = signer ∧ c2 = c)); try done.
  apply Hd.
Qed.

Lemma chans_below_empty : chans_below empty.
Proof. intros a c m. unfold pending. cbn. by rewrite lookup_empty. Qed.

(** X16. In every wallet the calls can produce, each entry is filed under the
    address and the content identifier of its own message, its channel was
    made before, and no two entries share a channel: a signature sent on a
    channel can reach one waiting call only. *)
Theorem reachable_invariants o :
  reachable o → well_filed o ∧ chans_below o ∧ chans_distinct o.
Proof.
  induction 1 as [|signer toSign meta n c o _ (Hwf & Hb & Hd) Hc Hm
                  |signer c o _ (Hwf & Hb & Hd)].
  - split_and!.
    + apply well_filed_empty.
    + intros a c m. unfold pending. cbn. by rewrite lookup_empty.
    + intros a c m a' c' m'. unfold pending. cbn. by rewrite lookup_empty.
  - split_and!.
    + by eapply well_filed_register.
    + by apply chans_below_register.
    + by apply chans_distinct_register.
  - split_and!.
    + by apply well_filed_deferred.
    + by apply chans_below_deferred.
    + by apply chans_distinct_deferred.
Qed.

(** X17. Once a request is filed, [GetPendingMessages] lists it, together with
    the messages of the entries filed under the other keys and nothing
    else; the entry it replaced, if there was one, is no longer listed on
    its own account. *)
Theorem GetPendingMessages_after_register signer toSign meta c o m :
  m ∈ (GetPendingMessages (WalletSign_register signer toSign meta c o).2).1.1.1
  ↔ m = {| UM_Address := signer; ToSign := toSign;
           UM_Meta := {| Meta_Type := Type_ meta; Meta_Extra := Extra meta |} |}
    ∨ ∃ a' c' e, ¬ (a' = signer ∧ c' = c) ∧ pending o a' c' = Some e ∧ msg e = m.
Proof.
  rewrite GetPendingMessages_elem. split.
  - intros (a' & c' & e & Hp & Hm). rewrite pending_register in Hp.
    destruct (decide (a' = signer ∧ c' = c)) as [_|Hne].
    + left. injection Hp as <-. by rewrite <- Hm.
    + right. by exists a', c', e.
  - intros [->|(a' & c' & e & Hne & Hp & Hm)].
    + eexists signer, c, _. rewrite pending_register, decide_True by done. done.
    + exists a', c', e. by rewrite pending_register, decide_False.
Qed.

(** X18. A [WalletSign] call, however it ends, leaves every entry filed under
    another key as it was, provided the other goroutines do not touch that
    entry while the call waits. *)
Theorem WalletSign_leaves_other_entries signer toSign meta w o a' c' :
  (∀ n c, CidFromBytes toSign = (n, c, None) → ¬ (a' = signer ∧ c' = c)) →
  (∀ s, pending (meanwhile w s) a' c' = pending s a' c') →
  pending (WalletSign signer toSign meta w o).2 a' c' = pending o a' c'.
Proof.
  intros Hne Henv.
  destruct (CidFromBytes toSign) as [[n c] [e|]] eqn:Hc.
  { unfold WalletSign. by rewrite Hc. }
  destruct (decide (Type_ meta = MTChainMsg)) as [Hm|Hm].
  - rewrite (Offline_WalletSign_run _ _ _ _ _ n c Hc Hm). cbn [snd].
    rewrite pending_deferred, decide_False by eauto.
    rewrite Henv, pending_register. by rewrite decide_False by eauto.
  - unfold WalletSign. rewrite Hc. by rewrite decide_True.
Qed.

Lemma SubmitSignature_not_found message o n cid :
  CidFromBytes (ToSign (SM_UnsignedMessage message)) = (n, cid, None) →
  Verify (SM_Signature message) (UM_Address (SM_UnsignedMessage message))
    (ToSign (SM_UnsignedMessage message)) = None →
  (∀ a, pending o a cid = None) →
  SubmitSignature message o
  = ((Some ("message " +:+ CidString cid +:+ " does not exist"), [EvLock; EvUnlock]), o).
Proof.
  intros Hc Hv Hno. unfold SubmitSignature. rewrite Hc, Hv. run.
  destruct (SubmitSignature_outer _ _) as [m'|] eqn:Ho; [|done].
  apply SubmitSignature_outer_Some in Ho as (a' & p' & Hin%elem_of_range & Hl).
  specialize (Hno a'). unfold pending in Hno. rewrite Hin in Hno. cbn in Hno. congruence.
Qed.

(** X19. A submission that arrives after [WalletSign] has returned, by timeout
    or otherwise, is answered "does not exist" and is sent on no channel,
    unless another address has the same content identifier on file. *)
Theorem SubmitSignature_after_return signer toSign meta w o n c sig message :
  CidFromBytes toSign = (n, c, None) →
  Type_ meta = MTChainMsg →
  let o' := (WalletSign signer toSign meta w o).2 in
  (∀ a, a ≠ signer → pending o' a c = None) →
  message = {| SM_UnsignedMessage :=
                 {| UM_Address := signer; ToSign := toSign;
                    UM_Meta := {| Meta_Type := Type_ meta; Meta_Extra := Extra meta |} |};
               SM_Signature := sig |} →
  Verify sig signer toSign = None →
  SubmitSignature message o'
  = ((Some ("message " +:+ CidString c +:+ " does not exist"), [EvLock; EvUnlock]), o').
Proof.
  intros Hc Hm o' Hothers -> Hv.
  apply (SubmitSignature_not_found _ _ n c); [done..|].
  intros a. destruct (decide (a = signer)) as [->|Hne]; [|by apply Hothers].
  subst o'. rewrite (Offline_WalletSign_run _ _ _ _ _ n c Hc Hm). cbn [snd].
  by rewrite pending_deferred, decide_True.
Qed.

(** X20. A second [WalletSign] for the same signer and payload, made while the
    first still waits, takes over the entry: the channel on file is the
    second call's, no entry holds the first call's channel any more, so no
    submission is ever sent to the first call, and the cleanup of either
    call removes the entry of the other. *)
Theorem second_WalletSign_replaces_first signer toSign meta toSign' meta' c o :
  chans_below o →
  let o1 := (WalletSign_register signer toSign meta c o).2 in
  let o2 := (WalletSign_register signer toSign' meta' c o1).2 in
  (ch <$> pending o1 signer c = Some (chans o))
  ∧ (ch <$> pending o2 signer c = Some (S (chans o)))
  ∧ (∀ a' c' m, pending o2 a' c' = Some m → ch m ≠ chans o)
  ∧ (∀ message sig, EvBlock (ChanSend (chans o) sig) ∉ (SubmitSignature message o2).1.2)
  ∧ pending (WalletSign_deferred signer c o2).2 signer c = None.
Proof.
  intros Hb o1 o2.
  assert (Hch1 : chans o1 = S (chans o)) by (subst o1; by rewrite WalletSign_register_run).
  assert (Hfresh : ∀ a' c' m, pending o2 a' c' = Some m → ch m ≠ chans o).
  { intros a' c' m. subst o2. rewrite pending_register.
    destruct (decide (a' = signer ∧ c' = c)) as [_|Hne].
    - intros [= <-]. simpl. lia.
    - subst o1. rewrite pending_register, decide_False by done.
      intros Hp%Hb. lia. }
  split_and!.
  - subst o1. by rewrite pending_register, decide_True.
  - subst o2. by rewrite pending_register, decide_True.
  - exact Hfresh.
  - intros message sig Hin. unfold SubmitSignature in Hin.
    destruct (CidFromBytes _) as [[n cid] [e|]]; [by apply elem_of_nil in Hin|].
    destruct (Verify _ _ _); [by apply elem_of_nil in Hin|].
    revert Hin. run.
    destruct (SubmitSignature_outer _ _) as [m'|] eqn:Ho; cbn.
    + apply SubmitSignature_outer_Some in Ho as (a' & p' & Hin'%elem_of_range & Hl).
      rewrite !elem_of_cons, elem_of_nil. intros [?|[[= Heq _]|[?|[]]]]; try done.
      apply (Hfresh a' cid m'); [|done]. unfold pending. by rewrite Hin'.
    + rewrite !elem_of_cons, elem_of_nil. naive_solver.
  - by rewrite pending_deferred, decide_True.
Qed.

Lemma range_empty `{Countable K} {V : Type} : range (∅ : gmap K V) = [].
Proof.
  apply Permutation_nil_r. unfold range. by rewrite range_order_perm, map_to_list_empty.
Qed.

Lemma range_singleton `{Countable K} {V : Type} (k : K) (v : V) :
  range ({[k := v]} : gmap K V) = [(k, v)].
Proof.
  apply Permutation_singleton_r. unfold range.
  by rewrite range_order_perm, map_to_list_singleton.
Qed.

(** X21. The course of one request through an empty queue.  Before it nothing
    is listed.  Once [WalletSign] has filed the request it is the one
    message listed; the operator's submission of it with a signature that
    verifies is sent on the call's channel; the call returns that
    signature.  Afterwards nothing is listed again, and what stays behind
    is an empty map under the signer's address. *)
Theorem offline_round_trip signer toSign meta n c sig d tie :
  CidFromBytes toSign = (n, c, None) →
  Type_ meta = MTChainMsg →
  Verify sig signer toSign = None →
  (d < sign_timeout)%Z →
  let m := {| UM_Address := signer; ToSign := toSign;
              UM_Meta := {| Meta_Type := Type_ meta; Meta_Extra := Extra meta |} |} in
  let o1 := (WalletSign_register signer toSign meta c empty).2 in
  let o2 := {| unsigned := {[signer := ∅]}; chans := 1 |} in
  GetPendingMessages empty = (([], None), [EvLock; EvUnlock], empty)
  ∧ GetPendingMessages o1 = (([m], None), [EvLock; EvUnlock], o1)
  ∧ SubmitSignature {| SM_UnsignedMessage := m; SM_Signature := sig |} o1
    = ((None, [EvLock; EvBlock (ChanSend 0 sig); EvUnlock]), o1)
  ∧ WalletSign signer toSign meta
      {| delivery := Some (d, sig); tie_recv := tie; meanwhile := id |} empty
    = (((Some sig, None),
        [EvLock; EvUnlock; EvBlock (Select 0 sign_timeout); EvLock; EvUnlock]), o2)
  ∧ GetPendingMessages o2 = (([], None), [EvLock; EvUnlock], o2).
Proof.
  intros Hc Hm Hv Hd m o1 o2.
  assert (Ho1 : o1 = {| unsigned := {[signer := {[c := {| msg := m; ch := 0 |}]}]};
                        chans := 1 |}).
  { subst o1. rewrite WalletSign_register_run. cbn.
    by rewrite lookup_empty, !insert_empty. }
  split_and!.
  - unfold GetPendingMessages. run. cbn. by rewrite range_empty.
  - rewrite Ho1. unfold GetPendingMessages. run. cbn.
    by rewrite range_singleton; cbn; rewrite range_singleton.
  - rewrite Ho1. unfold SubmitSignature. cbn. rewrite Hc, Hv. run. cbn.
    rewrite range_singleton; cbn. rewrite range_singleton; cbn.
    by rewrite decide_True.
  - rewrite (Offline_WalletSign_run _ _ _ _ _ n c Hc Hm). cbn [meanwhile id].
    fold o1. rewrite Ho1, WalletSign_deferred_run. cbn.
    rewrite lookup_singleton_eq, delete_singleton_eq, insert_singleton_eq.
    unfold select_case. cbn. by rewrite (proj2 (Z.ltb_lt _ _) Hd).
  - unfold GetPendingMessages. run. cbn.
    by rewrite range_singleton; cbn; rewrite range_empty.
Qed.

End OfflineQueue.

(** ** The offline wallet's key list *)

Section OfflineKeys.

Import Offline.
Context `{AddressLib} {D : Type} `{Datastore D}.
Implicit Types (ds : D) (addr address : Address).

(** X23. Over a datastore that finds what was put and does not find what was
    deleted: an address imported without error is one [WalletHas] answers
    true for, and it is a SECP256K1 or BLS address; an address of another
    protocol is refused and nothing is written; an address deleted without
    error is one [WalletHas] answers false for. *)
Theorem WalletImport_WalletHas_WalletDelete :
  (∀ k v ds ds', ds_Put k v ds = (None, ds') → (ds_Get k ds').2 = None) →
  (∀ k ds ds', ds_Delete k ds = (None, ds') → (ds_Get k ds').2 = Some ErrNotFound) →
  (∀ info ds addr ds',
     WalletImport info ds = (Returns (addr, None), ds') →
     WalletHas addr ds' = ((true, None), ds')
     ∧ (Protocol addr = SECP256K1 ∨ Protocol addr = BLS))
  ∧ (∀ ki ds addr,
       NewFromString (string_of_list_byte (PrivateKey ki)) = (addr, None) →
       Protocol addr ≠ SECP256K1 → Protocol addr ≠ BLS →
       WalletImport (Some ki) ds
       = (Returns (addr, Some "only SECP256K1 or BLS keys are supported"), ds))
  ∧ (∀ address ds ds',
       WalletDelete address ds = (None, ds') →
       WalletHas address ds' = ((false, None), ds')).
Proof.
  intros Hput Hdel. split_and!.
  - intros [ki|] ds addr ds'; unfold WalletImport; [|done].
    destruct (NewFromString _) as [a [e|]]; [done|].
    destruct (decide (Protocol a ≠ SECP256K1 ∧ Protocol a ≠ BLS)) as [Hp|Hp]; [done|].
    destruct (ds_Put (keyForAddr a) (Address_Bytes a) ds) as [e ds1] eqn:Hp1.
    intros [= -> -> ->]. split.
    + unfold WalletHas. by rewrite (Hput _ _ _ _ Hp1).
    + destruct (decide (Protocol addr = SECP256K1)); [by left|].
      destruct (decide (Protocol addr = BLS)); [by right|]. by destruct Hp.
  - intros ki ds addr Hparse H1 H3. unfold WalletImport. rewrite Hparse.
    by rewrite decide_True.
  - intros address ds ds' Hd. unfold WalletHas, WalletDelete in *.
    rewrite (Hdel _ _ _ Hd). by rewrite decide_True.
Qed.

Lemma WalletList_results_app (pre : list bytes) (addrs out : list Address) res :
  Forall2 (λ v a, NewFromBytes v = (a, None)) pre addrs →
  WalletList_results (pre ++ res) out = WalletList_results res (out ++ addrs).
Proof.
  intros Hall. revert out.
  induction Hall as [|v a pre addrs Hv _ IH]; intros out; simpl.
  - by rewrite app_nil_r.
  - rewrite Hv, IH. by rewrite <- app_assoc.
Qed.

(** X24. [WalletList] decodes the values the query yields, in their order.
    When all decode it returns the addresses; at the first value that does
    not decode it returns that error and no address at all; an error of the
    query itself is returned as it is. *)
Theorem OfflineWallet_WalletList_decodes ds :
  (∀ res addrs,
     ds_Query dsOfflinePrefix ds = (res, None) →
     Forall2 (λ v a, NewFromBytes v = (a, None)) res addrs →
     WalletList ds = ((addrs, None), ds))
  ∧ (∀ pre v post addrs a e,
       ds_Query dsOfflinePrefix ds = (pre ++ v :: post, None) →
       Forall2 (λ v a, NewFromBytes v = (a, None)) pre addrs →
       NewFromBytes v = (a, Some e) →
       WalletList ds = (([], Some e), ds))
  ∧ (∀ res e,
       ds_Query dsOfflinePrefix ds = (res, Some e) →
       WalletList ds = (([], Some e), ds)).
Proof.
  unfold WalletList. split_and!.
  - intros res addrs -> Hall.
    rewrite <- (app_nil_r res), (WalletList_results_app _ _ _ _ Hall). done.
  - intros pre v post addrs a e -> Hall Hv.
    rewrite (WalletList_results_app _ _ _ _ Hall). simpl. by rewrite Hv.
  - by intros res e ->.
Qed.

(** X25. What the [node import] command builds is never refused by the checks
    of [WalletImport]: when the command accepts its argument, and the
    address prints to a text that parses back to it, the import goes on to
    write the address under its key.  The command itself refuses every
    address that is neither SECP256K1 nor BLS. *)
Theorem nodeImport_keyinfo_accepted arg :
  (∀ ki ds,
     nodeImport_keyinfo arg = inl ki →
     ∃ addr,
       NewFromString arg = (addr, None)
       ∧ (NewFromString (Address_String addr) = (addr, None) →
          WalletImport (Some ki) ds
          = (Returns (addr, (ds_Put (keyForAddr addr) (Address_Bytes addr) ds).1),
             (ds_Put (keyForAddr addr) (Address_Bytes addr) ds).2)))
  ∧ (∀ addr,
       NewFromString arg = (addr, None) →
       Protocol addr ≠ SECP256K1 → Protocol addr ≠ BLS →
       nodeImport_keyinfo arg
       = inr ("unrecognized key type: " +:+ pretty (Byte.to_N (Protocol addr)))).
Proof.
  unfold nodeImport_keyinfo. split.
  - intros ki ds. destruct (NewFromString arg) as [addr [e|]]; [done|].
    intros Hki. exists addr. split; [done|]. intros Hrt.
    assert (Hpk : PrivateKey ki = list_byte_of_string (Address_String addr)
                  ∧ (Protocol addr = SECP256K1 ∨ Protocol addr = BLS)).
    { destruct (decide (Protocol addr = SECP256K1)).
      - injection Hki as <-. auto.
      - destruct (decide (Protocol addr = BLS)); [|done]. injection Hki as <-. auto. }
    destruct Hpk as [Hpk Hproto]. unfold WalletImport.
    rewrite Hpk, string_of_list_byte_of_string, Hrt.
    rewrite decide_False by (intros [? ?]; by destruct Hproto).
    by destruct (ds_Put _ _ _).
  - intros addr -> H1 H3. by rewrite !decide_False.
Qed.

End OfflineKeys.

Section OfflineQueueExamples.

Import Offline.
#[local] Existing Instances Sample.in_order Sample.cid_v1 Sample.sig_by_name.

Lemma reachable_invariants_witness :
  well_filed Sample.alice_waiting
  ∧ chans_below Sample.alice_waiting
  ∧ chans_distinct Sample.alice_waiting.
Proof.
  apply reachable_invariants.
  apply (reachable_register "f1alice" Sample.payload Sample.chain_msg 4).
  - apply reachable_empty.
  - reflexivity.
  - reflexivity.
Defined.

Lemma GetPendingMessages_after_register_witness :
  {| UM_Address := "f1bob"; ToSign := Sample.payload;
     UM_Meta := {| Meta_Type := MTChainMsg; Meta_Extra := [] |} |}
  ∈ (GetPendingMessages Sample.both_waiting).1.1.1.
Proof.
  apply (proj2 (GetPendingMessages_after_register "f1bob" Sample.payload Sample.chain_msg
                  (string_of_list_byte Sample.payload) Sample.alice_waiting _)).
  left. reflexivity.
Defined.

Lemma WalletSign_leaves_other_entries_witness :
  pending
    (WalletSign "f1bob" Sample.payload Sample.chain_msg
       {| delivery := None; tie_recv := false; meanwhile := id |} Sample.alice_waiting).2
    "f1alice" (string_of_list_byte Sample.payload)
  = pending Sample.alice_waiting "f1alice" (string_of_list_byte Sample.payload).
Proof.
  apply WalletSign_leaves_other_entries.
  - intros n c _ [Ha _]. discriminate Ha.
  - intros s. reflexivity.
Defined.

Lemma SubmitSignature_after_return_witness :
  SubmitSignature Sample.alice_submission
    (WalletSign "f1alice" Sample.payload Sample.chain_msg
       {| delivery := None; tie_recv := false; meanwhile := id |} empty).2
  = ((Some ("message " +:+ CidString (string_of_list_byte Sample.payload)
              +:+ " does not exist"),
      [EvLock; EvUnlock]),
     (WalletSign "f1alice" Sample.payload Sample.chain_msg
        {| delivery := None; tie_recv := false; meanwhile := id |} empty).2).
Proof.
  apply (SubmitSignature_after_return "f1alice" Sample.payload Sample.chain_msg
           {| delivery := None; tie_recv := false; meanwhile := id |} empty 4
           (string_of_list_byte Sample.payload)
           (SM_Signature Sample.alice_submission) Sample.alice_submission).
  - reflexivity.
  - reflexivity.
  - intros a Ha.
    rewrite (Offline_WalletSign_run "f1alice" Sample.payload Sample.chain_msg _ empty 4
               (string_of_list_byte Sample.payload)) by reflexivity.
    cbn [snd meanwhile]. unfold id.
    rewrite pending_deferred, decide_False by (intros [? _]; done).
    rewrite pending_register, decide_False by (intros [? _]; done).
    unfold pending. cbn. by rewrite lookup_empty.
  - reflexivity.
  - reflexivity.
Defined.

Lemma second_WalletSign_replaces_first_witness :
  ch <$> pending
           (WalletSign_register "f1alice" Sample.payload Sample.chain_msg
              (string_of_list_byte Sample.payload) Sample.alice_waiting).2
           "f1alice" (string_of_list_byte Sample.payload)
  = Some 1.
Proof.
  apply (proj1 (proj2
           (second_WalletSign_replaces_first "f1alice" Sample.payload Sample.chain_msg
              Sample.payload Sample.chain_msg (string_of_list_byte Sample.payload) empty
              chans_below_empty))).
Defined.

End OfflineQueueExamples.

Section MoreExamples.

#[local] Existing Instances Sample.in_order Sample.cid_v1 Sample.sig_by_name
  Sample.framing Sample.text_addresses Sample.map_store.

Lemma offline_round_trip_witness :
  Offline.WalletSign "f1alice" Sample.payload Sample.chain_msg
    {| Offline.delivery := Some (1%Z, Offline.SM_Signature Sample.alice_submission);
       Offline.tie_recv := false; Offline.meanwhile := id |} Offline.empty
  = (((Some (Offline.SM_Signature Sample.alice_submission), None),
      [EvLock; EvUnlock; EvBlock (Offline.Select 0 Offline.sign_timeout); EvLock; EvUnlock]),
     {| Offline.unsigned := {["f1alice" := ∅]}; Offline.chans := 1 |}).
Proof.
  assert (Hc : Offline.CidFromBytes Sample.payload
               = (4, string_of_list_byte Sample.payload, None)) by reflexivity.
  assert (Hv : Offline.Verify (Offline.SM_Signature Sample.alice_submission) "f1alice"
                 Sample.payload = None) by reflexivity.
  assert (Hd : (1 < Offline.sign_timeout)%Z) by reflexivity.
  apply (proj1 (proj2 (proj2 (proj2
           (offline_round_trip "f1alice" Sample.payload Sample.chain_msg 4
              (string_of_list_byte Sample.payload)
              (Offline.SM_Signature Sample.alice_submission) 1%Z false
              Hc eq_refl Hv Hd))))).
Defined.

Lemma SubmitSignature_retry_witness :
  Offline.SubmitSignature Sample.alice_submission Sample.alice_waiting
  = ((None,
      [EvLock; EvBlock (Offline.ChanSend 0 (Offline.SM_Signature Sample.alice_submission));
       EvUnlock]),
     Sample.alice_waiting).
Proof.
  assert (Hp : Offline.pending Sample.alice_waiting "f1alice"
                 (string_of_list_byte Sample.payload)
               = Some {| Offline.msg := Offline.SM_UnsignedMessage Sample.alice_submission;
                         Offline.ch := 0 |}).
  { vm_compute. reflexivity. }
  assert (Hu : ∀ a' m', Offline.pending Sample.alice_waiting a'
                          (string_of_list_byte Sample.payload) = Some m' → a' = "f1alice").
  { intros a' m'. unfold Sample.alice_waiting. rewrite pending_register.
    destruct (decide _) as [[-> _]|_]; [done|].
    unfold Offline.pending. cbn. by rewrite lookup_empty. }
  assert (Hc : Offline.CidFromBytes Sample.payload
               = (4, string_of_list_byte Sample.payload, None)) by reflexivity.
  assert (Hb : Offline.Verify Sample.mallory_sig "f1alice" Sample.payload
               = Some "signature did not match") by reflexivity.
  assert (Hg : Offline.Verify (Offline.SM_Signature Sample.alice_submission) "f1alice"
                 Sample.payload = None) by reflexivity.
  apply (proj2 (proj2
           (SubmitSignature_retry Sample.alice_waiting "f1alice"
              (string_of_list_byte Sample.payload) 4
              {| Offline.msg := Offline.SM_UnsignedMessage Sample.alice_submission;
                 Offline.ch := 0 |}
              Sample.mallory_sig (Offline.SM_Signature Sample.alice_submission)
              "signature did not match" Hp Hu Hc Hb Hg))).
Defined.

Lemma WalletSign_roundtrip_through_connect_witness :
  (Relay.WalletSign_roundtrip
     {| Relay.addresses := ["addr1"; "addr2"]; Relay.conn := Sample.peer_B;
        Relay.close := 0 |}
     "addr2" Sample.payload Sample.chain_msg Sample.server_with_B).1.1
  = (Some {| SigType := x01; SigData := list_byte_of_string "addr2" ++ Sample.payload |},
     None).
Proof.
  assert (Hu : Relay.Unmarshal_SignRequest
                 (Relay.Marshal_SignRequest
                    {| Relay.Signer := "addr2"; Relay.ToSign := Sample.payload;
                       Relay.Meta := Sample.chain_msg |}).1
               = inl {| Relay.Signer := "addr2"; Relay.ToSign := Sample.payload;
                        Relay.Meta := Sample.chain_msg |}).
  { vm_compute. reflexivity. }
  assert (Hr : Relay.Unmarshal_SignResponse
                 (Relay.Marshal_SignResponse
                    {| Relay.SignResponse_Signature :=
                         Some {| SigType := x01;
                                 SigData := list_byte_of_string "addr2" ++ Sample.payload |};
                       Relay.SignResponse_Err := "" |}).1
               = inl {| Relay.SignResponse_Signature :=
                          Some {| SigType := x01;
                                  SigData := list_byte_of_string "addr2" ++ Sample.payload |};
                        Relay.SignResponse_Err := "" |}).
  { vm_compute. reflexivity. }
  assert (Hm : Relay.Marshal_SignRequest
                 {| Relay.Signer := "addr2"; Relay.ToSign := Sample.payload;
                    Relay.Meta := Sample.chain_msg |}
               = ((Relay.Marshal_SignRequest
                     {| Relay.Signer := "addr2"; Relay.ToSign := Sample.payload;
                        Relay.Meta := Sample.chain_msg |}).1, None)) by reflexivity.
  assert (Hw : Wallet.WalletSign (Sample.keystore "B") "addr2" Sample.payload
                 Sample.chain_msg Sample.two_stores
               = ((Some {| SigType := x01;
                           SigData := list_byte_of_string "addr2" ++ Sample.payload |},
                   None), Sample.two_stores)) by reflexivity.
  assert (Hmr : Relay.Marshal_SignResponse
                  {| Relay.SignResponse_Signature :=
                       Some {| SigType := x01;
                               SigData := list_byte_of_string "addr2" ++ Sample.payload |};
                     Relay.SignResponse_Err := "" |}
                = ((Relay.Marshal_SignResponse
                      {| Relay.SignResponse_Signature :=
                           Some {| SigType := x01;
                                   SigData := list_byte_of_string "addr2" ++ Sample.payload |};
                         Relay.SignResponse_Err := "" |}).1, None)) by reflexivity.
  apply (WalletSign_roundtrip_through_connect (Sample.keystore "B") Sample.two_stores
           Sample.two_stores "unexpected EOF"
           {| Relay.addresses := ["addr1"; "addr2"]; Relay.conn := Sample.peer_B;
              Relay.close := 0 |}
           Sample.server_with_B "addr2" Sample.payload Sample.chain_msg
           (Relay.Marshal_SignRequest
              {| Relay.Signer := "addr2"; Relay.ToSign := Sample.payload;
                 Relay.Meta := Sample.chain_msg |}).1
           (Some {| SigType := x01;
                    SigData := list_byte_of_string "addr2" ++ Sample.payload |})
           None
           (Relay.Marshal_SignResponse
              {| Relay.SignResponse_Signature :=
                   Some {| SigType := x01;
                           SigData := list_byte_of_string "addr2" ++ Sample.payload |};
                 Relay.SignResponse_Err := "" |}).1
           eq_refl Hm Hu Hw Hmr Hr).
Defined.

Lemma WalletImport_WalletHas_WalletDelete_witness :
  Offline.WalletHas "f1alice"
    (Offline.WalletImport (Some Sample.key_f1alice) (∅ : gmap string (list byte))).2
  = ((true, None),
     (Offline.WalletImport (Some Sample.key_f1alice) (∅ : gmap string (list byte))).2).
Proof.
  refine (proj1 (proj1 (WalletImport_WalletHas_WalletDelete _ _)
                   (Some Sample.key_f1alice) (∅ : gmap string (list byte)) "f1alice" _ _)).
  - intros k v ds ds' [= <-]. cbn. by rewrite lookup_insert_eq.
  - intros k ds ds' [= <-]. cbn. by rewrite lookup_delete_eq.
  - reflexivity.
Defined.

Lemma OfflineWallet_WalletList_decodes_witness :
  Offline.WalletList
    (Offline.WalletImport (Some Sample.key_f1alice) (∅ : gmap string (list byte))).2
  = ((["f1alice"], None),
     (Offline.WalletImport (Some Sample.key_f1alice) (∅ : gmap string (list byte))).2).
Proof.
  apply (proj1 (OfflineWallet_WalletList_decodes
                  (Offline.WalletImport (Some Sample.key_f1alice)
                     (∅ : gmap string (list byte))).2)
           [list_byte_of_string "f1alice"]).
  - vm_compute. reflexivity.
  - repeat constructor.
Defined.

Lemma nodeImport_keyinfo_accepted_witness :
  ∃ addr,
    Offline.NewFromString "f1alice" = (addr, None)
    ∧ (Offline.NewFromString (Offline.Address_String addr) = (addr, None) →
       Offline.WalletImport (Some Sample.key_f1alice) (∅ : gmap string (list byte))
       = (Returns (addr, (Offline.ds_Put (Offline.keyForAddr addr)
                            (Offline.Address_Bytes addr)
                            (∅ : gmap string (list byte))).1),
          (Offline.ds_Put (Offline.keyForAddr addr) (Offline.Address_Bytes addr)
             (∅ : gmap string (list byte))).2)).
Proof.
  apply (proj1 (nodeImport_keyinfo_accepted "f1alice") Sample.key_f1alice
           (∅ : gmap string (list byte))).
  reflexivity.
Defined.

End MoreExamples.
